(** * Automobile Sales Dashboard

    A shallow embedding of [Part2_dashboard.py]: the load-and-clean script
    that builds the module-level table [df], the list [years] behind the year
    selector, the two Dash callbacks [toggle_year_dropdown] and
    [update_charts], and the pandas operations they are written with.

    Numbers: a float64 column is a column of [option Q], [None] being NaN;
    the arithmetic of sums and means is exact.  An integer column is a column
    of [Z] ([option Z] for the nullable [Int64] dtype of [Year]). *)

From Stdlib Require Import QArith Qround Ascii.
From stdpp Require Import base option list sorting strings pretty numbers.
Close Scope Q_scope.
Open Scope Z_scope.

(** ** The pandas operations the script uses *)
Module Pandas.

(** A cell of the frame that [pd.read_csv] returns. *)
Inductive cell : Type :=
  | NA
  | Int (z : Z)
  | Float (q : Q)
  | Str (s : string).

(** *** [int(s)] on a Python string, base 10

    Surrounding white space is dropped, one sign is accepted, and the
    digits may be separated by single underscores.  A string is the UTF-8
    encoding of the Python string.  Python first turns every character
    outside ASCII into an ASCII one, a space for a white space character and
    the digit for a decimal digit of any script, and gives up on any other;
    it then reads the ASCII text. *)
Definition is_space (a : ascii) : bool :=
  let n := nat_of_ascii a in
  (n =? 32)%nat || ((9 <=? n)%nat && (n <=? 13)%nat).

Definition digit_of (a : ascii) : option Z :=
  let n := nat_of_ascii a in
  if ((48 <=? n)%nat && (n <=? 57)%nat) then Some (Z.of_nat n - 48) else None.

Fixpoint lstrip (cs : list ascii) : list ascii :=
  match cs with
  | c :: cs' => if is_space c then lstrip cs' else cs
  | [] => []
  end.

Definition strip (cs : list ascii) : list ascii :=
  reverse (lstrip (reverse (lstrip cs))).

(** [prev] tells whether the character before was a digit: an underscore
    is accepted only between two digits. *)
Fixpoint py_digits (acc : Z) (prev : bool) (cs : list ascii) : option Z :=
  match cs with
  | [] => if prev then Some acc else None
  | c :: cs' =>
      match digit_of c with
      | Some d => py_digits (10 * acc + d) true cs'
      | None =>
          if (Ascii.eqb c "_" && prev)%bool then py_digits acc false cs'
          else None
      end
  end.

(** The white space characters from code point 128 on ([str.isspace]). *)
Definition unicode_space (cp : Z) : bool :=
  bool_decide (cp ∈ [0x85; 0xa0; 0x1680; 0x2028; 0x2029; 0x202f; 0x205f; 0x3000])
  || bool_decide (0x2000 ≤ cp ≤ 0x200a).

(** The decimal digits outside ASCII come in runs of ten, zero to nine; these
    are the code points of the zeros (Unicode 14, the tables of Python
    3.11). *)
Definition decimal_zeros : list Z :=
  [0x660; 0x6f0; 0x7c0; 0x966; 0x9e6; 0xa66; 0xae6; 0xb66; 0xbe6; 0xc66;
   0xce6; 0xd66; 0xde6; 0xe50; 0xed0; 0xf20; 0x1040; 0x1090; 0x17e0; 0x1810;
   0x1946; 0x19d0; 0x1a80; 0x1a90; 0x1b50; 0x1bb0; 0x1c40; 0x1c50; 0xa620;
   0xa8d0; 0xa900; 0xa9d0; 0xa9f0; 0xaa50; 0xabf0; 0xff10; 0x104a0; 0x10d30;
   0x11066; 0x110f0; 0x11136; 0x111d0; 0x112f0; 0x11450; 0x114d0; 0x11650;
   0x116c0; 0x11730; 0x118e0; 0x11950; 0x11c50; 0x11d50; 0x11da0; 0x16a60;
   0x16ac0; 0x16b50; 0x1d7ce; 0x1d7d8; 0x1d7e2; 0x1d7ec; 0x1d7f6; 0x1e140;
   0x1e2f0; 0x1e950; 0x1fbf0].

Definition unicode_decimal (cp : Z) : option Z :=
  (λ zero, cp - zero.2) <$> list_find (λ zero, zero ≤ cp < zero + 10) decimal_zeros.

(** The ASCII character Python puts for a character from code point 128
    on. *)
Definition to_ascii_char (cp : Z) : option ascii :=
  if unicode_space cp then Some " "%char
  else (λ d, ascii_of_nat (Z.to_nat (48 + d))) <$> unicode_decimal cp.

(** The text [int] reads, from the bytes of the string.  [pending] holds,
    inside a character of several bytes, the number of bytes still to come
    after the next one and the bits read so far. *)
Fixpoint to_ascii (pending : option (nat * Z)) (bs : list ascii)
  : option (list ascii) :=
  match bs with
  | [] => if pending is None then Some [] else None
  | b :: bs' =>
      let n := Z.of_nat (nat_of_ascii b) in
      match pending with
      | None =>
          if decide (n < 0x80) then cons b <$> to_ascii None bs'
          else if decide (0xc2 ≤ n ≤ 0xdf)
          then to_ascii (Some (0%nat, n - 0xc0)) bs'
          else if decide (0xe0 ≤ n ≤ 0xef)
          then to_ascii (Some (1%nat, n - 0xe0)) bs'
          else if decide (0xf0 ≤ n ≤ 0xf4)
          then to_ascii (Some (2%nat, n - 0xf0)) bs'
          else None
      | Some (more, bits) =>
          if decide (0x80 ≤ n ≤ 0xbf) then
            let bits := bits * 64 + (n - 0x80) in
            match more with
            | O => c ← to_ascii_char bits; cons c <$> to_ascii None bs'
            | S more' => to_ascii (Some (more', bits)) bs'
            end
          else None
      end
  end.

(** The ASCII text read: white space off both ends, a sign, the digits. *)
Definition py_int_ascii (cs : list ascii) : option Z :=
  match strip cs with
  | "+"%char :: cs => py_digits 0 false cs
  | "-"%char :: cs => Z.opp <$> py_digits 0 false cs
  | cs => py_digits 0 false cs
  end.

Definition py_int (s : string) : option Z :=
  to_ascii None (String.list_ascii_of_string s) ≫= py_int_ascii.

(** [Series.astype(int)] on one string of an object column: [int(s)], and
    the value has to fit the 64-bit integer dtype.  [None] stands for the
    [ValueError] or [OverflowError] the conversion raises. *)
Definition astype_int (s : string) : option Z :=
  z ← py_int s;
  if decide (- 2 ^ 63 ≤ z < 2 ^ 63) then Some z else None.


(** *** Reductions of a float column, NaN skipped *)
Definition Qsum (xs : list Q) : Q := foldl Qplus 0%Q xs.

(** [.sum(numeric_only=True)]: the sum of the values present; 0 when there
    is none. *)
Definition nansum (xs : list (option Q)) : Q := Qsum (omap id xs).

(** [.mean(numeric_only=True)]: the mean of the values present; NaN when
    there is none. *)
Definition nanmean (xs : list (option Q)) : option Q :=
  match omap id xs with
  | [] => None
  | ys => Some (Qsum ys / inject_Z (Z.of_nat (length ys)))%Q
  end.

(** *** [DataFrame.groupby(key, as_index=False)]

    With the defaults [sort=True] and [dropna=True]: one group per distinct
    key that is not null, the groups in ascending order of the key, each
    group holding its rows in the order of the frame. *)
Section groupby.
Context {A K : Type} `{EqDecision K}.
Context (le : relation K) `{!RelDecision le}.

Definition group_keys (key : A → option K) (rows : list A) : list K :=
  merge_sort le (remove_dups (omap key rows)).

Definition groupby (key : A → option K) (rows : list A)
  : list (K * list A) :=
  (λ k, (k, filter (λ r, key r = Some k) rows)) <$> group_keys key rows.

(** [groupby(key)[col].agg()] for a reduction [agg] of the column. *)
Definition groupby_agg {V W : Type} (key : A → option K) (col : A → V)
    (agg : list V → W) (rows : list A) : list (K * W) :=
  (λ g, (g.1, agg (col <$> g.2))) <$> groupby key rows.
End groupby.

(** *** What can raise

    The dtype of a column, the exceptions the libraries raise in this
    script, and the outcome of a call: a value or an exception. *)
Inductive dtype : Type := float64 | object.

Inductive exception : Type := TypeError | ValueError.

Inductive outcome (A : Type) : Type :=
  | Returns (a : A)
  | Raises (e : exception).
Arguments Returns {A} a.
Arguments Raises {A} e.

#[global] Instance outcome_bind : MBind outcome :=
  λ A B f m, match m with Returns a => f a | Raises e => Raises e end.

(** [.mean(numeric_only=True)] and [.sum(numeric_only=True)] on a grouped
    column: pandas refuses a column that is not numeric. *)
Definition numeric_only (d : dtype) : outcome unit :=
  match d with
  | float64 => Returns ()
  | object => Raises TypeError
  end.

(** The order of Python strings, code point by code point. *)
Definition str_le (s1 s2 : string) : Prop := Is_true (String.leb s1 s2).

#[global] Instance str_le_dec : RelDecision str_le.
Proof. intros s1 s2. unfold str_le. apply _. Defined.

(** [DataFrame.sort_values(col)] for an integer column read by [col]: the
    rows in ascending order of the column, rows with equal keys in the order
    they had (what the insertion sort numpy applies to short arrays
    gives).  The properties below use only that the result is a sorted
    permutation of the rows. *)
Fixpoint insert_by {A : Type} (col : A → Z) (x : A) (rows : list A) : list A :=
  match rows with
  | [] => [x]
  | y :: rows' =>
      if decide (col x ≤ col y) then x :: rows else y :: insert_by col x rows'
  end.

Definition sort_values {A : Type} (col : A → Z) (rows : list A) : list A :=
  foldr (insert_by col) [] rows.

End Pandas.
Import Pandas.

(** ** The table [df] *)

(** A row of [df] once the cleaning is done.  [Year] has the nullable
    [Int64] dtype, [Month] holds Python strings, [Recession] is a plain
    integer column; the float columns hold NaN as [None], and a cell of
    [Month] or [Vehicle_Type] that is missing is [None]. *)
Record SalesRecord : Type := {
  Year : option Z;
  Month : option string;
  Recession : Z;
  Automobile_Sales : option Q;
  Vehicle_Type : option string;
  Advertising_Expenditure : option Q;
  unemployment_rate : option Q;
}.

(** [df] with the dtypes of the two columns the callback reduces. *)
Record DataFrame : Type := {
  records : list SalesRecord;
  Automobile_Sales_dtype : dtype;
  Advertising_Expenditure_dtype : dtype;
}.

(** ** Loading and cleaning (lines 17 to 32) *)
Module Loader.

(** A row of the frame [pd.read_csv] returns.  The three columns the
    script converts may hold any cell; the four it only reads are taken
    with the dtype the script expects of them.  A field of a column that
    is not among [columns] is never read. *)
Record RawRow : Type := {
  raw_Year : cell;
  raw_Month : cell;
  raw_Recession : cell;
  raw_Automobile_Sales : option Q;
  raw_Vehicle_Type : option string;
  raw_Advertising_Expenditure : option Q;
  raw_unemployment_rate : option Q;
}.

Record RawFrame : Type := {
  columns : list string;
  rows : list RawRow;
}.

Section clean.
(** Two functions of the libraries are left open: how [pd.to_numeric]
    reads a string, and how Python prints a float. *)
Variable to_numeric_str : string → option Q.
Variable repr_float : Q → string.

(** [pd.to_numeric(_, errors="coerce")] on one cell; [None] is NaN. *)
Definition to_numeric (c : cell) : option Q :=
  match c with
  | NA => None
  | Int z => Some (inject_Z z)
  | Float q => Some q
  | Str s => to_numeric_str s
  end.

(** [.astype("Int64")] on one value: NaN becomes the null of the dtype; a
    value that is no integer, or an integer that does not fit 64 bits,
    raises ([None]). *)
Definition astype_Int64 (v : option Q) : option (option Z) :=
  match v with
  | None => Some None
  | Some q =>
      if decide (Qden (Qred q) = 1%positive
                 ∧ - 2 ^ 63 ≤ Qnum (Qred q) < 2 ^ 63)
      then Some (Some (Qnum (Qred q)))
      else None
  end.

(** [.fillna(0).astype(int)] on one value: the fraction is cut off; a value
    whose integer part does not fit 64 bits comes out as the least 64-bit
    integer (what the conversion instruction of x86-64 gives). *)
Definition fillna_astype_int (v : option Q) : Z :=
  match v with
  | None => 0
  | Some q =>
      let z := Qnum q `quot` Z.pos (Qden q) in
      if decide (- 2 ^ 63 ≤ z < 2 ^ 63) then z else - 2 ^ 63
  end.

(** [str(x)] of the value of a cell. *)
Definition astype_str (c : cell) : string :=
  match c with
  | NA => "nan"
  | Int z => pretty z
  | Float q => repr_float q
  | Str s => s
  end.

(** [Series.astype(str)] on one cell: a missing cell stays missing (pandas 3;
    earlier versions made it the text of [str(nan)]), any other is
    printed. *)
Definition Series_astype_str (c : cell) : option string :=
  match c with
  | NA => None
  | _ => Some (astype_str c)
  end.

(** [if col not in df.columns: df[col] = default] seen from one row. *)
Definition fallback {V : Type} (cols : list string) (col : string)
    (default present : V) : V :=
  if decide (col ∈ cols) then present else default.

Definition clean_row (cols : list string) (r : RawRow) : option SalesRecord :=
  y ← astype_Int64 (to_numeric (raw_Year r));
  Some {|
    Year := y;
    Month := Series_astype_str (raw_Month r);
    Recession := fillna_astype_int (to_numeric (raw_Recession r));
    Automobile_Sales :=
      fallback cols "Automobile_Sales" (Some 0%Q) (raw_Automobile_Sales r);
    Vehicle_Type :=
      fallback cols "Vehicle_Type" (Some "Unknown") (raw_Vehicle_Type r);
    Advertising_Expenditure :=
      fallback cols "Advertising_Expenditure" (Some 0%Q)
        (raw_Advertising_Expenditure r);
    unemployment_rate :=
      fallback cols "unemployment_rate" None (raw_unemployment_rate r);
  |}.

(** The script from [pd.read_csv] on; [None] when it raises: a
    [KeyError] for a column it indexes, or the failed cast of [Year]. *)
Definition clean (raw : RawFrame) : option (list SalesRecord) :=
  if decide ("Year" ∈ columns raw ∧ "Month" ∈ columns raw
             ∧ "Recession" ∈ columns raw)
  then mapM (clean_row (columns raw)) (rows raw)
  else None.
(** The dtype [pd.read_csv] and the fallback give a column the callback
    reduces: a column the source lacks is filled with a float; one it has is
    read as floats, but is of dtype object when the source has no row. *)
Definition column_dtype (raw : RawFrame) (col : string) : dtype :=
  if decide (col ∈ columns raw)
  then (if rows raw is [] then object else float64)
  else float64.

(** [df] as the callbacks find it: the rows and the dtypes of the two
    columns they reduce. *)
Definition clean_frame (raw : RawFrame) : option DataFrame :=
  table ← clean raw;
  Some {|
    records := table;
    Automobile_Sales_dtype := column_dtype raw "Automobile_Sales";
    Advertising_Expenditure_dtype := column_dtype raw "Advertising_Expenditure";
  |}.
End clean.

End Loader.

(** ** Controls (lines 42 and 50 to 75) *)

(** [sorted([int(y) for y in df["Year"].dropna().unique().tolist()])] *)
Definition compute_years (df : list SalesRecord) : list Z :=
  merge_sort Z.le (remove_dups (omap Year df)).

(** The options of the year dropdown, as pairs of label and value. *)
Definition year_dd_options (years : list Z) : list (string * Z) :=
  (λ y, (pretty y, y)) <$> years.

(** [years[-1] if years else None] *)
Definition year_dd_initial (years : list Z) : option Z := list.last years.

(** ** Figures *)

(** What the callback hands to the four graphs: the placeholder of
    [_empty_fig], or the plotly express call with its frame and title. *)
Inductive figure : Type :=
  | NoData (title : string)
  | LineByYear (frame : list (Z * option Q)) (title : string)
  | LineByMonth (frame : list (string * Q * option Z)) (title : string)
  | BarByType (frame : list (string * option Q)) (title : string)
  | PieByType (frame : list (string * Q)) (title : string)
  | ScatterUnemployment (frame : list SalesRecord) (title : string)
      (xaxis_title yaxis_title : string).

Definition _empty_fig (title : string) : figure := NoData title.

Definition is_placeholder (f : figure) : bool :=
  match f with NoData _ => true | _ => false end.

(** [DataFrame.empty] *)
Definition empty {A : Type} (frame : list A) : bool :=
  match frame with [] => true | _ => false end.

(** [f"{year_value}"] *)
Definition fmt_year (year_value : option Z) : string :=
  match year_value with
  | None => "None"
  | Some y => pretty y
  end.

(** ** The frames [update_charts] builds, under the names it gives them *)

Definition yearly (df : list SalesRecord) : list (Z * option Q) :=
  groupby_agg Z.le Year Automobile_Sales nanmean df.

(** [df["Year"] == year_value] on one row: a null on either side does not
    select the row. *)
Definition Year_eq (year_value : option Z) (r : SalesRecord) : Prop :=
  is_Some year_value ∧ Year r = year_value.

#[global] Instance Year_eq_dec year_value r : Decision (Year_eq year_value r).
Proof. unfold Year_eq. apply _. Defined.

Definition dff (df : list SalesRecord) (year_value : option Z)
  : list SalesRecord :=
  filter (Year_eq year_value) df.

(** [monthly] as the [groupby] leaves it. *)
Definition monthly_grouped (dff : list SalesRecord) : list (string * Q) :=
  groupby_agg str_le Month Automobile_Sales nansum dff.

(** The [try] block.  The third component is the cell of [Month_num], [None]
    when the frame has no such column: the conversion raised before the
    assignment, and [monthly] is what it was. *)
Definition try_Month_num (monthly : list (string * Q))
  : list (string * Q * option Z) :=
  match mapM (λ row, astype_int row.1) monthly with
  | Some Month_num =>
      (λ row, (row.1, Some row.2)) <$> sort_values snd (zip monthly Month_num)
  | None => (λ row, (row, None)) <$> monthly
  end.

Definition monthly (dff : list SalesRecord) : list (string * Q * option Z) :=
  try_Month_num (monthly_grouped dff).

Definition by_type (dff : list SalesRecord) : list (string * option Q) :=
  groupby_agg str_le Vehicle_Type Automobile_Sales nanmean dff.

Definition adv (dff : list SalesRecord) : list (string * Q) :=
  groupby_agg str_le Vehicle_Type Advertising_Expenditure nansum dff.

Definition rec (df : list SalesRecord) : list SalesRecord :=
  filter (λ r, Recession r = 1) df.

Definition rec_yearly (rec : list SalesRecord) : list (Z * option Q) :=
  groupby_agg Z.le Year Automobile_Sales nanmean rec.

Definition rec_type_avg (rec : list SalesRecord) : list (string * option Q) :=
  groupby_agg str_le Vehicle_Type Automobile_Sales nanmean rec.

Definition rec_adv (rec : list SalesRecord) : list (string * Q) :=
  groupby_agg str_le Vehicle_Type Advertising_Expenditure nansum rec.

(** [rec.dropna(subset=["unemployment_rate"])] *)
Definition rec_u (rec : list SalesRecord) : list SalesRecord :=
  filter (λ r, is_Some (unemployment_rate r)) rec.

(** ** Callbacks *)

(** What the module holds once it is loaded and the callbacks read. *)
Record module_state : Type := {
  df : list SalesRecord;
  years : list Z;
}.

Definition load (table : list SalesRecord) : module_state :=
  {| df := table; years := compute_years table |}.

(** A callback is a computation over the module's state. *)
Definition callback (A : Type) : Type := module_state → A * module_state.

#[global] Instance callback_ret : MRet callback := λ A x s, (x, s).
#[global] Instance callback_bind : MBind callback :=
  λ A B f m s, let (a, s') := m s in f a s'.

(** Reading a global. *)
Definition read {A : Type} (var : module_state → A) : callback A :=
  λ s, (var s, s).

Definition toggle_year_dropdown (report_type : string) : bool * string :=
  if decide (report_type = "Yearly Statistics")
  then (false, "Year is enabled for Yearly Statistics.")
  else (true, "Year is disabled for Recession Period Statistics.").

Definition yearly_figures (d : list SalesRecord) (year_value : option Z)
  : figure * figure * figure * figure :=
  let yearly := yearly d in
  let fig1 :=
    if empty yearly then _empty_fig "Yearly Automobile Sales (Average)"
    else LineByYear yearly "Yearly Automobile Sales (Average over Months)" in
  let dff := dff d year_value in
  let monthly := monthly dff in
  let fig2 :=
    if empty monthly
    then _empty_fig ("Total Monthly Automobile Sales — " +:+ fmt_year year_value)
    else LineByMonth monthly
           ("Total Monthly Automobile Sales — " +:+ fmt_year year_value) in
  let by_type := by_type dff in
  let fig3 :=
    if empty by_type
    then _empty_fig ("Average Vehicles Sold by Vehicle Type — "
                     +:+ fmt_year year_value)
    else BarByType by_type
           ("Average Vehicles Sold by Vehicle Type — " +:+ fmt_year year_value) in
  let adv := adv dff in
  let fig4 :=
    if empty adv
    then _empty_fig ("Ad Expenditure Share by Vehicle Type — "
                     +:+ fmt_year year_value)
    else PieByType adv
           ("Ad Expenditure Share by Vehicle Type — " +:+ fmt_year year_value) in
  (fig1, fig2, fig3, fig4).

Definition recession_figures (d : list SalesRecord)
  : figure * figure * figure * figure :=
  let rec := rec d in
  let rec_yearly := rec_yearly rec in
  let fig1 :=
    if empty rec_yearly
    then _empty_fig "Avg Automobile Sales during Recession (Year-wise)"
    else LineByYear rec_yearly
           "Avg Automobile Sales during Recession (Year-wise)" in
  let rec_type_avg := rec_type_avg rec in
  let fig2 :=
    if empty rec_type_avg
    then _empty_fig "Avg Vehicles Sold by Vehicle Type (Recession)"
    else BarByType rec_type_avg
           "Avg Vehicles Sold by Vehicle Type (Recession)" in
  let rec_adv := rec_adv rec in
  let fig3 :=
    if empty rec_adv
    then _empty_fig "Ad Expenditure Share by Vehicle Type (Recession)"
    else PieByType rec_adv
           "Ad Expenditure Share by Vehicle Type (Recession)" in
  let rec_u := rec_u rec in
  let fig4 :=
    if empty rec_u then _empty_fig "Unemployment vs Sales (Recession)"
    else ScatterUnemployment rec_u
           "Unemployment vs Automobile Sales by Vehicle Type (Recession)"
           "Unemployment Rate" "Automobile Sales" in
  (fig1, fig2, fig3, fig4).

(** [if year_value is None and years: year_value = years[-1]] *)
Definition or_last_year (year_value : option Z) (years : list Z) : option Z :=
  match year_value, list.last years with
  | None, Some y => Some y
  | _, _ => year_value
  end.

Definition update_charts (report_type : string) (year_value : option Z)
  : callback (figure * figure * figure * figure) :=
  ys ← read years;
  let year_value := or_last_year year_value ys in
  if decide (report_type = "Yearly Statistics") then
    d ← read df;
    mret (yearly_figures d year_value)
  else
    d ← read df;
    mret (recession_figures d).

(** ** The controls and how Dash drives the callbacks *)

(** The properties of the two dropdowns and of the help line. *)
Record controls : Type := {
  report_dd : string;
  year_dd : option Z;
  year_dd_disabled : bool;
  year_help : string;
}.

(** The controls as the layout declares them. *)
Definition layout (years : list Z) : controls :=
  {| report_dd := "Yearly Statistics";
     year_dd := year_dd_initial years;
     year_dd_disabled := false;
     year_help := "" |}.

(** A new value of [report-dd]: Dash calls [toggle_year_dropdown] with it and
    writes the two outputs. *)
Definition set_report_dd (value : string) (c : controls) : controls :=
  let (disabled, children) := toggle_year_dropdown value in
  {| report_dd := value;
     year_dd := year_dd c;
     year_dd_disabled := disabled;
     year_help := children |}.

(** A new value of [year-dd]. *)
Definition set_year_dd (value : option Z) (c : controls) : controls :=
  {| report_dd := report_dd c;
     year_dd := value;
     year_dd_disabled := year_dd_disabled c;
     year_help := year_help c |}.

(** What the user does to the two dropdowns, and the controls after a series
    of such events on the page as laid out. *)
Inductive event : Type :=
  | ReportChanged (value : string)
  | YearChanged (value : option Z).

Definition on_event (c : controls) (e : event) : controls :=
  match e with
  | ReportChanged value => set_report_dd value c
  | YearChanged value => set_year_dd value c
  end.

Definition session (years : list Z) (events : list event) : controls :=
  foldl on_event (layout years) events.

(** The four figures the dashboard shows for a table and a selector state,
    when no library call raises. *)
Definition charts (table : list SalesRecord) (report_type : string)
    (year_value : option Z) : figure * figure * figure * figure :=
  (update_charts report_type year_value (load table)).1.

(** ** The callback with the calls that can raise

    [update_charts] on [df] with its dtypes.  The reductions of a grouped
    column raise a [TypeError] for a column of dtype object; [px.scatter],
    called when [rec_u] is not empty, raises a [ValueError] when a marker
    size, the sales of a plotted record, is NaN or negative.  When nothing
    raises, the four figures are those of [charts]. *)
Definition valid_size (r : SalesRecord) : bool :=
  match Automobile_Sales r with
  | Some q => Qle_bool 0 q
  | None => false
  end.

Definition px_scatter_sizes (rec_u : list SalesRecord) : outcome unit :=
  if forallb valid_size rec_u then Returns () else Raises ValueError.

Definition update_charts_outcome (frame : DataFrame) (report_type : string)
    (year_value : option Z) : outcome (figure * figure * figure * figure) :=
  if decide (report_type = "Yearly Statistics") then
    (* lines 139, 151 and 166 *)
    _ ← numeric_only (Automobile_Sales_dtype frame);
    (* line 174 *)
    _ ← numeric_only (Advertising_Expenditure_dtype frame);
    Returns (charts (records frame) report_type year_value)
  else
    (* lines 186 and 194 *)
    _ ← numeric_only (Automobile_Sales_dtype frame);
    (* line 202 *)
    _ ← numeric_only (Advertising_Expenditure_dtype frame);
    (* line 215 *)
    _ ← px_scatter_sizes (rec_u (rec (records frame)));
    Returns (charts (records frame) report_type year_value).

(** ** Reference notions, in the words of the specification *)

Fixpoint total (xs : list Q) : Q :=
  match xs with
  | [] => 0%Q
  | x :: xs' => (x + total xs')%Q
  end.

Definition arithmetic_mean (xs : list Q) : Q :=
  (total xs / inject_Z (Z.of_nat (length xs)))%Q.

(** [v] is the mean of the values [xs]: NaN when there is no value. *)
Definition mean_of (xs : list Q) (v : option Q) : Prop :=
  match v with
  | None => xs = []
  | Some m => xs ≠ [] ∧ (m == arithmetic_mean xs)%Q
  end.

(** The sales figures present among the records that satisfy [P]. *)
Definition sales_where (P : SalesRecord → Prop) `{∀ r, Decision (P r)}
    (table : list SalesRecord) : list Q :=
  omap Automobile_Sales (filter P table).



(** The month labels the code takes for numbers: those [astype(int)]
    accepts, which reads them as Python's [int] does and keeps the integers
    of 64 bits.  This is narrower than the numeric strings of the
    specification. *)
Definition reads_as_int64 (s : string) : Prop := is_Some (astype_int s).

(** [astype(int)] accepts every label and the integers never decrease. *)
Definition ascending_by_number (months : list string) : Prop :=
  ∃ nums, mapM astype_int months = Some nums ∧ Sorted Z.le nums.

(** ** Sample tables *)

Definition record (year : Z) (month : string) (recession : Z) (sales : Q)
    (type : string) (ad : Q) (unemployment : option Q) : SalesRecord :=
  {| Year := Some year; Month := Some month; Recession := recession;
     Automobile_Sales := Some sales; Vehicle_Type := Some type;
     Advertising_Expenditure := Some ad; unemployment_rate := unemployment |}.

(** The two scenarios of the specification. *)
Definition table_2019 : list SalesRecord :=
  [record 2019 "1" 0 100 "A" 0 None; record 2019 "2" 0 200 "A" 0 None].

Definition table_2020 : list SalesRecord :=
  [record 2020 "3" 1 50 "B" 10 None; record 2020 "4" 1 150 "C" 30 None].

(** Numeric month labels whose order as strings is not their order as
    numbers, over two years. *)
Definition table_numeric : list SalesRecord :=
  [record 2019 "10" 0 30 "Sports" 5 None;
   record 2019 "2" 0 20 "Sports" 5 None;
   record 2018 "7" 1 70 "Sedan" 1 (Some (5 # 2)%Q);
   record 2019 "1" 0 10 "Sedan" 5 None;
   record 2019 "2" 0 22 "Sedan" 5 None].


(** Month names, as in the hosted file. *)
Definition table_names : list SalesRecord :=
  [record 2019 "Jan" 0 10 "Sedan" 5 None;
   record 2019 "Feb" 0 20 "Sedan" 5 None;
   record 2019 "Jan" 0 30 "Sports" 5 None].

(** A record whose year did not parse, next to one whose year did. *)
Definition table_null_year : list SalesRecord :=
  [{| Year := None; Month := Some "1"; Recession := 0;
      Automobile_Sales := Some 500%Q; Vehicle_Type := Some "Sedan";
      Advertising_Expenditure := Some 1%Q; unemployment_rate := None |};
   record 2019 "1" 0 100 "Sedan" 1 None].

(** Stand-ins for the two library functions the loader leaves open, to run it
    on examples: integer literals only, and no float to print. *)
Definition to_numeric_literal (s : string) : option Q := inject_Z <$> py_int s.
Definition repr_none (q : Q) : string := "nan".

(** A source with every expected column and one empty [Vehicle_Type] cell. *)
Definition raw_empty_type : Loader.RawFrame :=
  {| Loader.columns :=
       ["Year"; "Month"; "Recession"; "Automobile_Sales"; "Vehicle_Type";
        "Advertising_Expenditure"; "unemployment_rate"];
     Loader.rows :=
       [{| Loader.raw_Year := Int 2019; Loader.raw_Month := Str "Jan";
           Loader.raw_Recession := Str "yes";
           Loader.raw_Automobile_Sales := Some 100%Q;
           Loader.raw_Vehicle_Type := None;
           Loader.raw_Advertising_Expenditure := Some 5%Q;
           Loader.raw_unemployment_rate := None |}] |}.

(** A source without the four optional columns. *)
Definition raw_bare : Loader.RawFrame :=
  {| Loader.columns := ["Year"; "Month"; "Recession"];
     Loader.rows :=
       [{| Loader.raw_Year := Str "2019"; Loader.raw_Month := Int 1;
           Loader.raw_Recession := NA;
           Loader.raw_Automobile_Sales := None;
           Loader.raw_Vehicle_Type := None;
           Loader.raw_Advertising_Expenditure := None;
           Loader.raw_unemployment_rate := None |}] |}.

(** A source whose [Month] column holds integers, without the three
    optional columns [Vehicle_Type], [Advertising_Expenditure] and
    [unemployment_rate]; one [Recession] cell is a fraction. *)
Definition raw_int_months : Loader.RawFrame :=
  {| Loader.columns := ["Year"; "Month"; "Recession"; "Automobile_Sales"];
     Loader.rows :=
       [{| Loader.raw_Year := Int 2019; Loader.raw_Month := Int 10;
           Loader.raw_Recession := Int 1;
           Loader.raw_Automobile_Sales := Some 30%Q;
           Loader.raw_Vehicle_Type := None;
           Loader.raw_Advertising_Expenditure := None;
           Loader.raw_unemployment_rate := Some 4%Q |};
        {| Loader.raw_Year := Int 2019; Loader.raw_Month := Int 2;
           Loader.raw_Recession := Float (3 # 2)%Q;
           Loader.raw_Automobile_Sales := Some 20%Q;
           Loader.raw_Vehicle_Type := None;
           Loader.raw_Advertising_Expenditure := None;
           Loader.raw_unemployment_rate := Some 5%Q |}] |}.

Definition table_int_months : list SalesRecord :=
  [{| Year := Some 2019; Month := Some "10"; Recession := 1;
      Automobile_Sales := Some 30%Q; Vehicle_Type := Some "Unknown";
      Advertising_Expenditure := Some 0%Q; unemployment_rate := None |};
   {| Year := Some 2019; Month := Some "2"; Recession := 1;
      Automobile_Sales := Some 20%Q; Vehicle_Type := Some "Unknown";
      Advertising_Expenditure := Some 0%Q; unemployment_rate := None |}].

(** A source whose [Year] column holds a fraction: the load raises. *)
Definition raw_fraction_year : Loader.RawFrame :=
  {| Loader.columns := ["Year"; "Month"; "Recession"];
     Loader.rows :=
       [{| Loader.raw_Year := Float (4039 # 2)%Q; Loader.raw_Month := Int 1;
           Loader.raw_Recession := Int 0;
           Loader.raw_Automobile_Sales := None;
           Loader.raw_Vehicle_Type := None;
           Loader.raw_Advertising_Expenditure := None;
           Loader.raw_unemployment_rate := None |}] |}.

(** A source that is the header line alone, with all seven columns. *)
Definition raw_header_only : Loader.RawFrame :=
  {| Loader.columns :=
       ["Year"; "Month"; "Recession"; "Automobile_Sales"; "Vehicle_Type";
        "Advertising_Expenditure"; "unemployment_rate"];
     Loader.rows := [] |}.


(** The frame of a table whose sales and expenditure columns are floats. *)
Definition float_frame (table : list SalesRecord) : DataFrame :=
  {| records := table; Automobile_Sales_dtype := float64;
     Advertising_Expenditure_dtype := float64 |}.

(** A table none of whose records has a year. *)
Definition table_no_year : list SalesRecord :=
  [{| Year := None; Month := Some "1"; Recession := 1;
      Automobile_Sales := Some 500%Q; Vehicle_Type := Some "Sedan";
      Advertising_Expenditure := Some 1%Q;
      unemployment_rate := Some 3%Q |}].

(** * Properties *)

Example py_int_plain : py_int "12" = Some 12.
Proof. reflexivity. Qed.
Example py_int_spaces_sign : py_int " -0_7  " = Some (-7).
Proof. reflexivity. Qed.
Example py_int_float_literal : py_int "1.0" = None.
Proof. reflexivity. Qed.
Example py_int_name : py_int "Jan" = None.
Proof. reflexivity. Qed.
Example py_int_underscores : py_int "1__0" = None ∧ py_int "_1" = None ∧ py_int "1_" = None.
Proof. repeat split; reflexivity. Qed.
Example py_int_signs :
  py_int "+1" = Some 1 ∧ py_int "007" = Some 7 ∧ py_int "+ 1" = None
  ∧ py_int "--1" = None ∧ py_int "-" = None ∧ py_int "" = None
  ∧ py_int "1 2" = None ∧ py_int "0x10" = None.
Proof. repeat split; reflexivity. Qed.
Example astype_int_overflow : astype_int "9223372036854775808" = None.
Proof. reflexivity. Qed.
Example nanmean_skips : nanmean [Some 1%Q; None; Some 2%Q] = Some ((0 + 1 + 2) / 2)%Q.
Proof. reflexivity. Qed.
Example group_keys_sorted :
  group_keys Z.le (λ x : option Z, x) [Some 3; None; Some 1; Some 3] = [1; 3].
Proof. reflexivity. Qed.

(** The first scenario of the specification: the monthly totals of 2019. *)
Example monthly_2019 :
  monthly (dff table_2019 (Some 2019))
  = [("1", 100%Q, Some 1); ("2", 200%Q, Some 2)].
Proof. vm_compute. reflexivity. Qed.

(** The second scenario: advertising expenditure per type in recessions. *)
Example rec_adv_2020 : rec_adv (rec table_2020) = [("B", 10%Q); ("C", 30%Q)].
Proof. vm_compute. reflexivity. Qed.

(** The grouping orders the month labels as strings; the [try] block then
    orders them as numbers. *)
Example monthly_numeric :
  (monthly_grouped (dff table_numeric (Some 2019))).*1 = ["1"; "10"; "2"]
  ∧ (monthly (dff table_numeric (Some 2019))).*1.*1 = ["1"; "2"; "10"].
Proof. split; vm_compute; reflexivity. Qed.

(** With month names the rows stay as the grouping sorted them, which is
    not the order in which the table has them. *)
Example monthly_names :
  monthly (dff table_names (Some 2019))
  = [("Feb", 20%Q, None); ("Jan", 40%Q, None)].
Proof. vm_compute. reflexivity. Qed.

Example clean_raw_bare :
  Loader.clean to_numeric_literal repr_none raw_bare
  = Some [{| Year := Some 2019; Month := Some "1"; Recession := 0;
             Automobile_Sales := Some 0%Q; Vehicle_Type := Some "Unknown";
             Advertising_Expenditure := Some 0%Q;
             unemployment_rate := None |}].
Proof. vm_compute. reflexivity. Qed.

(** ** Grouping *)
Section groupby_facts.
Context {A K : Type} `{EqDecision K}.
Context (le : relation K) `{!RelDecision le}.
Implicit Types (key : A → option K) (rows : list A).

Lemma group_keys_Permutation key rows :
  group_keys le key rows ≡ₚ remove_dups (omap key rows).
Proof. apply merge_sort_Permutation. Qed.

Lemma group_keys_NoDup key rows : NoDup (group_keys le key rows).
Proof. rewrite group_keys_Permutation. apply NoDup_remove_dups. Qed.

Lemma elem_of_group_keys key rows k :
  k ∈ group_keys le key rows ↔ ∃ r, r ∈ rows ∧ key r = Some k.
Proof.
  rewrite group_keys_Permutation, elem_of_remove_dups.
  apply list_elem_of_omap.
Qed.

Lemma group_keys_Sorted `{!Total le} key rows :
  Sorted le (group_keys le key rows).
Proof. apply Sorted_merge_sort, _. Qed.

Lemma groupby_agg_keys {V W} key (col : A → V) (agg : list V → W) rows :
  (groupby_agg le key col agg rows).*1 = group_keys le key rows.
Proof.
  unfold groupby_agg, groupby.
  rewrite <- !list_fmap_compose.
  induction (group_keys le key rows) as [|k ks IH]; [done|].
  rewrite !fmap_cons. simpl. by f_equal.
Qed.

Lemma elem_of_groupby_agg {V W} key (col : A → V) (agg : list V → W) rows k w :
  (k, w) ∈ groupby_agg le key col agg rows ↔
  k ∈ group_keys le key rows
  ∧ w = agg (col <$> filter (λ r, key r = Some k) rows).
Proof.
  unfold groupby_agg, groupby.
  rewrite <- list_fmap_compose, list_elem_of_fmap. simpl. split.
  - intros (k' & [= -> ->] & Hk). done.
  - intros [Hk ->]. eauto.
Qed.

(** Rows whose key is null are in no group: dropping them beforehand
    changes nothing. *)
Lemma groupby_agg_dropna {V W} key (col : A → V) (agg : list V → W) rows :
  groupby_agg le key col agg (filter (λ r, is_Some (key r)) rows)
  = groupby_agg le key col agg rows.
Proof.
  unfold groupby_agg, groupby, group_keys.
  assert (omap key (filter (λ r, is_Some (key r)) rows) = omap key rows) as ->.
  { induction rows as [|r rows IH]; [done|].
    rewrite filter_cons. destruct (key r) as [k|] eqn:E.
    - rewrite decide_True by eauto. simpl. rewrite E. f_equal. exact IH.
    - rewrite decide_False by (by intros [? ?]). simpl. rewrite E. exact IH. }
  rewrite <- !list_fmap_compose. apply list_fmap_ext. intros _ k _. simpl.
  f_equal. f_equal. f_equal.
  rewrite list_filter_filter. apply list_filter_iff.
  intros r. split; [tauto|]. intros E. split; [done|]. rewrite E. eauto.
Qed.
End groupby_facts.

(** ** Sums and means *)

Lemma foldl_Qplus_total (a : Q) (xs : list Q) :
  (foldl Qplus a xs == a + total xs)%Q.
Proof.
  revert a. induction xs as [|x xs IH]; intros a; simpl.
  - symmetry. apply Qplus_0_r.
  - rewrite IH. symmetry. apply Qplus_assoc.
Qed.

Lemma Qsum_total (xs : list Q) : (Qsum xs == total xs)%Q.
Proof. unfold Qsum. rewrite foldl_Qplus_total. apply Qplus_0_l. Qed.

Lemma nanmean_mean_of (col : list (option Q)) :
  mean_of (omap id col) (nanmean col).
Proof.
  unfold nanmean. destruct (omap id col) as [|y ys] eqn:E; simpl; [done|].
  split; [done|]. unfold arithmetic_mean. by rewrite Qsum_total.
Qed.

Lemma omap_id_fmap {A B} (f : A → option B) (l : list A) :
  omap id (f <$> l) = omap f l.
Proof.
  induction l as [|x l IH]; simpl; [done|].
  destruct (f x); simpl; [f_equal|]; exact IH.
Qed.

Lemma Sorted_le_NoDup_lt (l : list Z) : Sorted Z.le l → NoDup l → Sorted Z.lt l.
Proof.
  intros Hs%Sorted_StronglySorted Hn; [|apply _].
  apply StronglySorted_Sorted.
  induction Hs as [|x l Hs IH Hx]; [constructor|].
  apply list.NoDup_cons in Hn as [Hx' Hn].
  constructor; [by apply IH|].
  rewrite list.Forall_forall in Hx |- *. intros y Hy.
  assert (x ≠ y) by (intros ->; exact (Hx' Hy)).
  specialize (Hx y Hy). lia.
Qed.

(** ** What [update_charts] returns in each branch *)

Lemma update_charts_yearly year_value (s : module_state) :
  update_charts "Yearly Statistics" year_value s
  = (yearly_figures (df s) (or_last_year year_value (years s)), s).
Proof. reflexivity. Qed.

Lemma update_charts_recession report_type year_value (s : module_state) :
  report_type ≠ "Yearly Statistics" →
  update_charts report_type year_value s = (recession_figures (df s), s).
Proof.
  intros Hne. unfold update_charts, mbind, callback_bind, read.
  by rewrite decide_False.
Qed.

Lemma Year_eq_Some (Y : Z) (r : SalesRecord) :
  Year_eq (Some Y) r ↔ Year r = Some Y.
Proof. unfold Year_eq. split; [tauto|]. eauto. Qed.

Lemma elem_of_dff table (Y : Z) r :
  r ∈ dff table (Some Y) ↔ r ∈ table ∧ Year r = Some Y.
Proof. unfold dff. rewrite list_elem_of_filter, Year_eq_Some. tauto. Qed.

Lemma filter_dff (P : SalesRecord → Prop) `{∀ r, Decision (P r)} table (Y : Z) :
  filter P (dff table (Some Y)) = filter (λ r, Year r = Some Y ∧ P r) table.
Proof.
  unfold dff. rewrite list_filter_filter. apply list_filter_iff.
  intros r. rewrite Year_eq_Some. tauto.
Qed.

(** ** Yearly mode *)

(** C3: chart slot 1 of the yearly report groups the whole table by [Year]:
    its years are those of the table in strictly ascending order, each with
    the mean of the sales of all the records of that year, and neither frame
    nor figure depends on the selected year. *)
Theorem yearly_average_over_whole_table (table : list SalesRecord) :
  Sorted Z.lt (yearly table).*1
  ∧ (∀ y, y ∈ (yearly table).*1 ↔ ∃ r, r ∈ table ∧ Year r = Some y)
  ∧ (∀ y v, (y, v) ∈ yearly table ↔
       y ∈ (yearly table).*1
       ∧ v = nanmean (Automobile_Sales <$> filter (λ r, Year r = Some y) table))
  ∧ (∀ y v, (y, v) ∈ yearly table →
       mean_of (sales_where (λ r, Year r = Some y) table) v)
  ∧ (∀ selectedYear,
       (charts table "Yearly Statistics" selectedYear).1.1.1
       = if empty (yearly table)
         then NoData "Yearly Automobile Sales (Average)"
         else LineByYear (yearly table)
                "Yearly Automobile Sales (Average over Months)").
Proof.
  unfold yearly. rewrite groupby_agg_keys.
  split; [|split; [|split; [|split]]].
  - apply Sorted_le_NoDup_lt; [apply group_keys_Sorted, _|apply group_keys_NoDup].
  - intros y. apply elem_of_group_keys.
  - intros y v. apply elem_of_groupby_agg.
  - intros y v [_ ->]%elem_of_groupby_agg. unfold sales_where.
    rewrite <- omap_id_fmap. apply nanmean_mean_of.
  - done.
Qed.

(** C2: chart slot 3 of the yearly report for the year [Y] has exactly one
    row for each vehicle type that occurs among the records of [Y], and the
    value of the row is the mean of the sales of the records of that year and
    type.  It holds for every [Y], so for every year of the table. *)
Theorem by_type_mean_per_vehicle_type (table : list SalesRecord) (Y : Z) :
  let result := by_type (dff table (Some Y)) in
  NoDup result.*1
  ∧ (∀ t, t ∈ result.*1 ↔
       ∃ r, r ∈ table ∧ Year r = Some Y ∧ Vehicle_Type r = Some t)
  ∧ (∀ t v, (t, v) ∈ result →
       mean_of
         (sales_where (λ r, Year r = Some Y ∧ Vehicle_Type r = Some t) table) v)
  ∧ (charts table "Yearly Statistics" (Some Y)).1.2
    = if empty result
      then NoData ("Average Vehicles Sold by Vehicle Type — " +:+ pretty Y)
      else BarByType result
             ("Average Vehicles Sold by Vehicle Type — " +:+ pretty Y).
Proof.
  intros result. unfold result, by_type. rewrite groupby_agg_keys.
  split; [apply group_keys_NoDup|]. split; [|split; [|done]].
  - intros t. rewrite elem_of_group_keys. split.
    + intros (r & [Hr Hy]%elem_of_dff & Ht). eauto.
    + intros (r & Hr & Hy & Ht). exists r. by rewrite elem_of_dff.
  - intros t v [_ ->]%elem_of_groupby_agg. unfold sales_where.
    rewrite filter_dff, <- omap_id_fmap. apply nanmean_mean_of.
Qed.

(** ** Integer month labels: [astype(str)] then [astype(int)] *)

Lemma digit_of_pretty_N_char (d : N) :
  (d < 10)%N → digit_of (pretty_N_char d) = Some (Z.of_N d).
Proof.
  intros Hd.
  assert (d = 0 ∨ d = 1 ∨ d = 2 ∨ d = 3 ∨ d = 4 ∨ d = 5 ∨ d = 6 ∨ d = 7
          ∨ d = 8 ∨ d = 9)%N as Hcases by lia.
  repeat (destruct Hcases as [->|Hcases]; [reflexivity|]). by subst.
Qed.

Lemma digit_not_space (c : ascii) : is_Some (digit_of c) → is_space c = false.
Proof.
  unfold digit_of, is_space. intros [d Hd].
  destruct (48 <=? nat_of_ascii c)%nat eqn:E1; [|done].
  apply Nat.leb_le in E1. apply orb_false_intro.
  - apply Nat.eqb_neq. lia.
  - apply andb_false_intro2, Nat.leb_gt. lia.
Qed.

Lemma lstrip_no_space (cs : list ascii) :
  Forall (λ c, is_space c = false) cs → lstrip cs = cs.
Proof. destruct 1 as [|c cs Hc _]; simpl; [done|]. by rewrite Hc. Qed.

Lemma strip_no_space (cs : list ascii) :
  Forall (λ c, is_space c = false) cs → strip cs = cs.
Proof.
  intros Hcs. unfold strip. rewrite (lstrip_no_space cs Hcs).
  rewrite lstrip_no_space by (by apply Forall_reverse).
  apply reverse_involutive.
Qed.

(** The digits [pretty_N_go] puts before [s], as [py_digits] reads them. *)
Lemma pretty_N_go_py_digits (x : N) (s : string) :
  ∃ ds,
    String.list_ascii_of_string (pretty_N_go x s)
    = ds ++ String.list_ascii_of_string s
    ∧ Forall (λ c, is_Some (digit_of c)) ds
    ∧ ((0 < x)%N → ds ≠ [])
    ∧ ∀ acc prev rest,
        py_digits acc prev (ds ++ rest)
        = py_digits (acc * 10 ^ Z.of_nat (length ds) + Z.of_N x)
            (if ds is [] then prev else true) rest.
Proof.
  revert s. induction (N.lt_wf_0 x) as [x _ IH]. intros s.
  destruct (decide (x = 0%N)) as [->|Hx].
  - exists []. rewrite pretty_N_go_0. split; [done|]. split; [done|].
    split; [lia|]. intros acc prev rest. simpl. f_equal. lia.
  - assert (0 < x)%N as Hpos by lia. rewrite pretty_N_go_step by done.
    destruct (IH (x `div` 10)%N (N.div_lt x 10 Hpos eq_refl)
                (String (pretty_N_char (x `mod` 10)) s))
      as (ds & Hchars & Hdigits & _ & Hread).
    assert (digit_of (pretty_N_char (x `mod` 10)) = Some (Z.of_N (x `mod` 10)))
      as Hd by (apply digit_of_pretty_N_char, N.mod_lt; lia).
    exists (ds ++ [pretty_N_char (x `mod` 10)]).
    split; [by rewrite Hchars, <- app_assoc|].
    split; [apply Forall_app; split; [done|]; constructor; [by eexists|done]|].
    split; [by destruct ds|].
    intros acc prev rest. rewrite <- app_assoc. simpl. rewrite Hread.
    simpl. rewrite Hd.
    replace (if ds ++ [pretty_N_char (x `mod` 10)] is [] then prev else true)
      with true by (by destruct ds).
    f_equal. rewrite length_app, Nat2Z.inj_add, Z.pow_add_r by lia.
    rewrite N2Z.inj_div, N2Z.inj_mod. simpl.
    pose proof (Z.div_mod (Z.of_N x) 10). lia.
Qed.

(** A text that starts with a digit once stripped carries no sign. *)
Lemma py_int_ascii_unsigned (cs : list ascii) (c : ascii) (cs' : list ascii) :
  strip cs = c :: cs' →
  is_Some (digit_of c) →
  py_int_ascii cs = py_digits 0 false (c :: cs').
Proof.
  intros Hs [d Hd]. unfold py_int_ascii. rewrite Hs.
  destruct c as [[] [] [] [] [] [] [] []]; try reflexivity; discriminate.
Qed.

Lemma digit_is_ascii (c : ascii) :
  is_Some (digit_of c) → Z.of_nat (nat_of_ascii c) < 0x80.
Proof.
  unfold digit_of. intros [d Hd].
  destruct (48 <=? nat_of_ascii c)%nat eqn:E1; [|done].
  destruct (nat_of_ascii c <=? 57)%nat eqn:E2; [|done].
  apply Nat.leb_le in E2. lia.
Qed.

(** ASCII text is read as it stands. *)
Lemma to_ascii_ascii (cs : list ascii) :
  Forall (λ c, Z.of_nat (nat_of_ascii c) < 0x80) cs → to_ascii None cs = Some cs.
Proof.
  induction 1 as [|c cs Hc _ IH]; [done|].
  cbn [to_ascii]. rewrite decide_True by done. by rewrite IH.
Qed.

Lemma py_int_pretty_pos (p : positive) :
  ∃ ds,
    String.list_ascii_of_string (pretty_N_go (N.pos p) "") = ds
    ∧ Forall (λ c, is_space c = false) ds
    ∧ Forall (λ c, Z.of_nat (nat_of_ascii c) < 0x80) ds
    ∧ (∃ c ds', ds = c :: ds' ∧ is_Some (digit_of c))
    ∧ py_digits 0 false ds = Some (Z.pos p).
Proof.
  destruct (pretty_N_go_py_digits (N.pos p) "")
    as (ds & Hchars & Hdigits & Hne & Hread).
  exists ds. simpl in Hchars. rewrite app_nil_r in Hchars.
  split; [done|]. split; [|split; [|split]].
  - eapply list.Forall_impl; [exact Hdigits|]. apply digit_not_space.
  - eapply list.Forall_impl; [exact Hdigits|]. apply digit_is_ascii.
  - destruct ds as [|c ds']; [by destruct Hne|].
    exists c, ds'. split; [done|]. by apply list.Forall_cons in Hdigits as [? _].
  - specialize (Hread 0 false []). rewrite app_nil_r in Hread.
    rewrite Hread. destruct ds; [by destruct Hne|]. simpl. done.
Qed.

(** Python's [int] reads back what [str] printed of an integer. *)
Lemma py_int_pretty (z : Z) : py_int (pretty z) = Some z.
Proof.
  destruct z as [|p|p]; [reflexivity|..].
  - destruct (py_int_pretty_pos p)
      as (ds & Hchars & Hspace & Hascii & (c & ds' & -> & Hc) & Hv).
    unfold pretty, pretty_Z, pretty, pretty_positive, pretty, pretty_N.
    rewrite decide_False by done. unfold py_int.
    rewrite Hchars, to_ascii_ascii by done. cbn [mbind option_bind].
    rewrite (py_int_ascii_unsigned _ c ds'); [done| |done].
    by rewrite strip_no_space.
  - destruct (py_int_pretty_pos p) as (ds & Hchars & Hspace & Hascii & _ & Hv).
    unfold pretty, pretty_Z, pretty, pretty_positive, pretty, pretty_N.
    rewrite decide_False by done. unfold py_int.
    change (String.list_ascii_of_string ("-" +:+ pretty_N_go (N.pos p) ""))
      with ("-"%char :: String.list_ascii_of_string (pretty_N_go (N.pos p) "")).
    rewrite Hchars, to_ascii_ascii by (by constructor).
    cbn [mbind option_bind]. unfold py_int_ascii.
    rewrite strip_no_space by (by constructor).
    simpl. by rewrite Hv.
Qed.

Lemma astype_int_pretty (z : Z) :
  - 2 ^ 63 ≤ z < 2 ^ 63 → astype_int (pretty z) = Some z.
Proof.
  intros Hz. unfold astype_int. rewrite py_int_pretty. simpl.
  by rewrite decide_True.
Qed.








(** ** The [try] block around [Month_num] *)

Lemma Forall2_zip {A B} (P : A → B → Prop) (l : list A) (k : list B) :
  Forall2 P l k → Forall (λ p, P p.1 p.2) (zip l k).
Proof. induction 1; simpl; constructor; done. Qed.

Lemma insert_by_Permutation {A} (col : A → Z) (x : A) (rows : list A) :
  insert_by col x rows ≡ₚ x :: rows.
Proof.
  induction rows as [|y rows IH]; simpl; [done|].
  case_decide; [done|]. rewrite IH. apply Permutation_swap.
Qed.

Lemma insert_by_HdRel {A} (col : A → Z) (a : Z) (x : A) (rows : list A) :
  a ≤ col x → HdRel Z.le a (col <$> rows) →
  HdRel Z.le a (col <$> insert_by col x rows).
Proof.
  intros Hx Hhd. destruct rows as [|y rows]; cbn; [by constructor|].
  case_decide; cbn; constructor; [done|]. by apply HdRel_inv in Hhd.
Qed.

Lemma insert_by_Sorted {A} (col : A → Z) (x : A) (rows : list A) :
  Sorted Z.le (col <$> rows) → Sorted Z.le (col <$> insert_by col x rows).
Proof.
  induction rows as [|y rows IH]; cbn; intros Hs.
  - repeat constructor.
  - case_decide as Hxy; cbn.
    + constructor; [exact Hs|]. by constructor.
    + apply Sorted_inv in Hs as [Hs Hhd].
      constructor; [by apply IH|]. apply insert_by_HdRel; [lia|done].
Qed.

Lemma sort_values_Permutation {A} (col : A → Z) (rows : list A) :
  sort_values col rows ≡ₚ rows.
Proof.
  unfold sort_values. induction rows as [|x rows IH]; simpl; [done|].
  by rewrite insert_by_Permutation, IH.
Qed.

Lemma sort_values_Sorted {A} (col : A → Z) (rows : list A) :
  Sorted Z.le (col <$> sort_values col rows).
Proof.
  unfold sort_values. induction rows as [|x rows IH]; simpl.
  - constructor.
  - by apply insert_by_Sorted.
Qed.

Section try_Month_num_facts.
Implicit Types (monthly : list (string * Q)) (Month_num : list Z).

Lemma try_Month_num_converted monthly Month_num :
  mapM (λ row, astype_int row.1) monthly = Some Month_num →
  let sorted := sort_values snd (zip monthly Month_num) in
  try_Month_num monthly = (λ row, (row.1, Some row.2)) <$> sorted
  ∧ sorted.*1 ≡ₚ monthly
  ∧ Forall (λ p, astype_int p.1.1 = Some p.2) sorted.
Proof.
  intros E sorted. unfold try_Month_num. rewrite E. split; [done|].
  pose proof (sort_values_Permutation snd (zip monthly Month_num)) as Hp.
  fold sorted in Hp. split.
  - rewrite Hp. rewrite fst_zip; [done|].
    apply length_mapM in E. lia.
  - rewrite Hp. apply mapM_Some in E.
    by apply (Forall2_zip (λ row n, astype_int row.1 = Some n)).
Qed.

Lemma try_Month_num_rows monthly : (try_Month_num monthly).*1 ≡ₚ monthly.
Proof.
  destruct (mapM (λ row, astype_int row.1) monthly) as [Month_num|] eqn:E.
  - destruct (try_Month_num_converted _ _ E) as (-> & Hp & _).
    rewrite <- list_fmap_compose. exact Hp.
  - unfold try_Month_num. rewrite E, <- list_fmap_compose.
    by rewrite list_fmap_id.
Qed.

Lemma try_Month_num_numeric monthly :
  (∀ row, row ∈ monthly → reads_as_int64 row.1) →
  ascending_by_number (try_Month_num monthly).*1.*1
  ∧ ∀ row, row ∈ try_Month_num monthly → row.2 = astype_int row.1.1.
Proof.
  intros Hnum.
  assert (is_Some (mapM (λ row, astype_int row.1) monthly)) as [Month_num E].
  { apply mapM_is_Some, list.Forall_forall. intros row Hrow.
    by apply Hnum. }
  destruct (try_Month_num_converted _ _ E) as (-> & _ & Hconv).
  set (sorted := sort_values snd (zip monthly Month_num)) in *. split.
  - exists sorted.*2. split; [|apply sort_values_Sorted].
    apply mapM_Some. rewrite <- !list_fmap_compose.
    apply Forall2_fmap, Forall_Forall2_diag.
    eapply list.Forall_impl; [exact Hconv|]. by intros [[m v] n].
  - intros row (p & -> & Hp)%list_elem_of_fmap. simpl.
    rewrite list.Forall_forall in Hconv. symmetry. by apply Hconv.
Qed.

End try_Month_num_facts.

(** Two labels of the same number keep the order of the grouping. *)
Example try_Month_num_ties :
  try_Month_num [("07", 1%Q); ("7", 2%Q); ("1", 3%Q)]
  = [(("1", 3%Q), Some 1); (("07", 1%Q), Some 7); (("7", 2%Q), Some 7)].
Proof. vm_compute. reflexivity. Qed.



(** ** The selected year *)

Lemma compute_years_Sorted table : Sorted Z.le (compute_years table).
Proof. apply Sorted_merge_sort, _. Qed.

Lemma elem_of_compute_years table y :
  y ∈ compute_years table ↔ ∃ r, r ∈ table ∧ Year r = Some y.
Proof.
  unfold compute_years.
  rewrite merge_sort_Permutation, elem_of_remove_dups.
  apply list_elem_of_omap.
Qed.

Lemma compute_years_NoDup table : NoDup (compute_years table).
Proof.
  unfold compute_years. rewrite merge_sort_Permutation.
  apply NoDup_remove_dups.
Qed.

Lemma last_Sorted_max (l : list Z) (m : Z) :
  Sorted Z.le l → list.last l = Some m → m ∈ l ∧ ∀ x, x ∈ l → x ≤ m.
Proof.
  intros Hs%Sorted_StronglySorted [l' ->]%last_Some; [|apply _].
  apply StronglySorted_app in Hs as (Hle & _ & _).
  split; [apply elem_of_app; right; by apply list_elem_of_singleton|].
  intros x [Hx| ->%list_elem_of_singleton]%elem_of_app; [|lia].
  apply Hle; [done|]. by apply list_elem_of_singleton.
Qed.

(** C7: when some record has a year, the year dropdown starts on the largest
    year of the table, and [update_charts] called with no year builds the
    figures of that year. *)
Theorem default_year_is_max (table : list SalesRecord) :
  (∃ r y, r ∈ table ∧ Year r = Some y) →
  ∃ m,
    year_dd (layout (years (load table))) = Some m
    ∧ (∃ r, r ∈ table ∧ Year r = Some m)
    ∧ (∀ r y, r ∈ table → Year r = Some y → y ≤ m)
    ∧ charts table "Yearly Statistics" None = yearly_figures table (Some m)
    ∧ charts table "Yearly Statistics" None
      = charts table "Yearly Statistics" (Some m).
Proof.
  intros (r & y & Hr & Hy).
  assert (y ∈ compute_years table) as Hin by (apply elem_of_compute_years; eauto).
  destruct (list.last (compute_years table)) as [m|] eqn:E.
  2: { apply last_None in E. rewrite E in Hin. by apply elem_of_nil in Hin. }
  destruct (last_Sorted_max _ _ (compute_years_Sorted table) E) as [Hm Hmax].
  exists m. split; [exact E|]. split; [by apply elem_of_compute_years|].
  split.
  - intros r' y' Hr' Hy'. apply Hmax, elem_of_compute_years. eauto.
  - unfold charts. rewrite !update_charts_yearly. simpl.
    unfold or_last_year. by rewrite E.
Qed.

(** ** Recession mode *)

Lemma rec_nil table : (∀ r, r ∈ table → Recession r ≠ 1) → rec table = [].
Proof.
  intros Hno. unfold rec. induction table as [|r table IH]; [done|].
  rewrite filter_cons, decide_False.
  - apply IH. intros r' Hr'. apply Hno. by right.
  - apply Hno. by left.
Qed.

Lemma charts_recession table year_value :
  charts table "Recession Period Statistics" year_value
  = recession_figures table.
Proof. unfold charts. by rewrite update_charts_recession. Qed.

Lemma forallb_valid_size (rows : list SalesRecord) :
  forallb valid_size rows = true ↔ ∀ r, r ∈ rows → valid_size r = true.
Proof.
  induction rows as [|r rows IH]; simpl.
  - split; [|done]. intros _ r Hr. by apply elem_of_nil in Hr.
  - rewrite andb_true_iff, IH. split.
    + intros [Hr Hrows] r' [->|Hr']%list.elem_of_cons; auto.
    + intros Hall. split; [apply Hall; left|].
      intros r' Hr'. apply Hall. by right.
Qed.

(** C5, on the code: for a table without a recession record the recession
    report is the four placeholders when the sales and the expenditure
    columns are float columns, and the callback raises a [TypeError], giving
    no figure at all, when one of them is of dtype object, as both are for a
    source that is the header line alone. *)
Theorem recession_without_records (frame : DataFrame)
    (year_value : option Z) :
  (∀ r, r ∈ records frame → Recession r ≠ 1) →
  update_charts_outcome frame "Recession Period Statistics" year_value
  = match Automobile_Sales_dtype frame, Advertising_Expenditure_dtype frame with
    | float64, float64 =>
        Returns
          (NoData "Avg Automobile Sales during Recession (Year-wise)",
           NoData "Avg Vehicles Sold by Vehicle Type (Recession)",
           NoData "Ad Expenditure Share by Vehicle Type (Recession)",
           NoData "Unemployment vs Sales (Recession)")
    | _, _ => Raises TypeError
    end.
Proof.
  intros Hno. unfold update_charts_outcome. rewrite decide_False by done.
  destruct (Automobile_Sales_dtype frame); [|done].
  destruct (Advertising_Expenditure_dtype frame); [|done].
  cbn [numeric_only mbind outcome_bind].
  rewrite charts_recession. unfold recession_figures.
  by rewrite (rec_nil _ Hno).
Qed.

(** ** The report selector *)

(** C6: whatever the controls were, choosing the recession report disables
    the year dropdown and shows the help line, choosing the yearly report
    enables it again, and the flag depends on the chosen report only. *)
Theorem year_dropdown_follows_report (c : controls) :
  year_dd_disabled (set_report_dd "Recession Period Statistics" c) = true
  ∧ year_help (set_report_dd "Recession Period Statistics" c)
    = "Year is disabled for Recession Period Statistics."
  ∧ year_dd_disabled (set_report_dd "Yearly Statistics" c) = false
  ∧ year_help (set_report_dd "Yearly Statistics" c)
    = "Year is enabled for Yearly Statistics."
  ∧ (∀ report_type (c' : controls),
       year_dd_disabled (set_report_dd report_type c)
       = year_dd_disabled (set_report_dd report_type c')
       ∧ year_dd_disabled (set_report_dd report_type c)
         = (toggle_year_dropdown report_type).1)
  ∧ (∀ report_type year_value,
       year_dd_disabled (set_year_dd year_value (set_report_dd report_type c))
       = year_dd_disabled (set_report_dd report_type c)).
Proof.
  repeat split; try reflexivity.
  all: unfold set_report_dd; by destruct (toggle_year_dropdown _).
Qed.

Lemma recession_figures_ne_yearly table table' year_value :
  recession_figures table ≠ yearly_figures table' year_value.
Proof.
  intros Heq. apply (f_equal (λ figs, figs.1.1.1)) in Heq.
  unfold recession_figures, yearly_figures in Heq. simpl in Heq.
  destruct (empty (rec_yearly _)), (empty (yearly _)); discriminate.
Qed.

(** C10: every report type other than the exact string [Yearly Statistics]
    disables the year dropdown and gets the four figures of the recession
    report; the figures of the yearly report are returned for that string
    and for no other. *)
Theorem yearly_branch_only_on_equality (report_type : string)
    (table : list SalesRecord) (year_value : option Z) (c : controls) :
  (report_type ≠ "Yearly Statistics" →
     toggle_year_dropdown report_type
     = (true, "Year is disabled for Recession Period Statistics.")
     ∧ year_dd_disabled (set_report_dd report_type c) = true
     ∧ charts table report_type year_value = recession_figures table
     ∧ charts table report_type year_value
       = charts table "Recession Period Statistics" year_value)
  ∧ (report_type = "Yearly Statistics" →
       toggle_year_dropdown report_type
       = (false, "Year is enabled for Yearly Statistics.")
       ∧ charts table report_type year_value
         = yearly_figures table
             (or_last_year year_value (compute_years table)))
  ∧ (∀ year_value',
       charts table report_type year_value = yearly_figures table year_value' →
       report_type = "Yearly Statistics").
Proof.
  split; [|split].
  - intros Hne.
    assert (toggle_year_dropdown report_type
            = (true, "Year is disabled for Recession Period Statistics."))
      as Ht by (unfold toggle_year_dropdown; by rewrite decide_False).
    split; [exact Ht|]. split; [unfold set_report_dd; by rewrite Ht|].
    unfold charts. rewrite !update_charts_recession; done.
  - by intros ->.
  - intros year_value' Heq.
    destruct (decide (report_type = "Yearly Statistics")) as [|Hne]; [done|].
    unfold charts in Heq. rewrite update_charts_recession in Heq by done.
    by apply recession_figures_ne_yearly in Heq.
Qed.

(** ** Records without a year *)

Lemma omap_filter_is_Some {A B} (f : A → option B) (l : list A) :
  omap f (filter (λ x, is_Some (f x)) l) = omap f l.
Proof.
  induction l as [|x l IH]; [done|].
  rewrite filter_cons. destruct (f x) as [y|] eqn:E.
  - rewrite decide_True by eauto. simpl. rewrite E. f_equal. exact IH.
  - rewrite decide_False by (by intros [? ?]). simpl. rewrite E. exact IH.
Qed.

(** C9: the records whose year is null take no part in chart slot 1 of the
    yearly report nor in the year dropdown: both are what they are for the
    table without those records, every row of the chart is the group of a
    year some record has, and the options of the dropdown are the distinct
    years of the records, each once. *)
Theorem null_year_excluded (table : list SalesRecord) :
  let known := filter (λ r, is_Some (Year r)) table in
  yearly table = yearly known
  ∧ (∀ y v, (y, v) ∈ yearly table → ∃ r, r ∈ table ∧ Year r = Some y)
  ∧ compute_years table = compute_years known
  ∧ NoDup (year_dd_options (compute_years table)).*2
  ∧ (∀ label y,
       (label, y) ∈ year_dd_options (compute_years table) ↔
       label = pretty y ∧ ∃ r, r ∈ table ∧ Year r = Some y).
Proof.
  intros known. split; [|split; [|split; [|split]]].
  - unfold yearly, known. by rewrite groupby_agg_dropna.
  - intros y v [Hy _]%elem_of_groupby_agg. by apply elem_of_group_keys in Hy.
  - unfold compute_years, known. by rewrite omap_filter_is_Some.
  - unfold year_dd_options. rewrite <- list_fmap_compose. simpl.
    rewrite list_fmap_id. apply compute_years_NoDup.
  - intros label y. unfold year_dd_options.
    rewrite list_elem_of_fmap, <- elem_of_compute_years. split.
    + by intros (y' & [= -> ->] & Hy).
    + intros [-> Hy]. eauto.
Qed.

(** ** Loading *)

Section loader_facts.
Import Loader.
Variable to_numeric_str : string → option Q.
Variable repr_float : Q → string.

Lemma clean_row_fields cols source r :
  clean_row to_numeric_str repr_float cols source = Some r →
  Recession r = fillna_astype_int (to_numeric to_numeric_str (raw_Recession source))
  ∧ Vehicle_Type r
    = fallback cols "Vehicle_Type" (Some "Unknown") (raw_Vehicle_Type source).
Proof.
  unfold clean_row. intros Hr.
  destruct (astype_Int64 _) as [y|]; simpl in Hr; [|done].
  by injection Hr as <-.
Qed.

Lemma clean_rows raw table :
  clean to_numeric_str repr_float raw = Some table →
  Forall2 (λ source r,
             clean_row to_numeric_str repr_float (columns raw) source = Some r)
          (rows raw) table.
Proof.
  unfold clean. destruct (decide _) as [_|]; [|done]. apply mapM_Some.
Qed.
End loader_facts.

(** C4, as the code has it: when the load completes, every row has an
    integer [Recession], which is 0 where the source cell is empty or does
    not parse; [Vehicle_Type] is ["Unknown"] in every row when the source has
    no such column, and is the cell of the source, empty or not, when it
    has.  The source has a [Recession] column, or the load would not have
    completed. *)
Theorem clean_defaults (to_numeric_str : string → option Q)
    (repr_float : Q → string) (raw : Loader.RawFrame)
    (table : list SalesRecord) :
  Loader.clean to_numeric_str repr_float raw = Some table →
  "Recession" ∈ Loader.columns raw
  ∧ Forall2
      (λ source r,
         Recession r
         = Loader.fillna_astype_int
             (Loader.to_numeric to_numeric_str (Loader.raw_Recession source))
         ∧ (Loader.to_numeric to_numeric_str (Loader.raw_Recession source)
            = None → Recession r = 0)
         ∧ ("Vehicle_Type" ∉ Loader.columns raw →
            Vehicle_Type r = Some "Unknown")
         ∧ ("Vehicle_Type" ∈ Loader.columns raw →
            Vehicle_Type r = Loader.raw_Vehicle_Type source))
      (Loader.rows raw) table.
Proof.
  intros Hclean. split.
  { unfold Loader.clean in Hclean. destruct (decide _) as [(_ & _ & ?)|]; done. }
  apply clean_rows in Hclean.
  eapply list.Forall2_impl; [exact Hclean|]. simpl.
  intros source r [Hrec Htype]%clean_row_fields.
  split; [exact Hrec|]. split; [intros E; by rewrite Hrec, E|].
  unfold Loader.fallback in Htype. split; intros Hcol.
  - by rewrite decide_False in Htype.
  - by rewrite decide_True in Htype.
Qed.

(** C4 as the specification words it fails: the source has the column
    [Vehicle_Type], one cell of it is empty, and the load completes with that
    cell still null. *)
Lemma clean_leaves_empty_type_null :
  ∃ r, Loader.clean to_numeric_literal repr_none raw_empty_type = Some [r]
       ∧ Vehicle_Type r = None
       ∧ ¬ is_Some (Vehicle_Type r).
Proof.
  eexists. split; [vm_compute; reflexivity|]. simpl.
  split; [reflexivity|]. by intros [? ?].
Qed.

(** ** The properties on the sample tables *)

(** Closes a decidable goal by evaluating its decision procedure. *)
Ltac by_evaluation := apply (bool_decide_unpack _); vm_compute; exact I.

Lemma clean_defaults_witness :
  "Recession" ∈ Loader.columns raw_bare
  ∧ Forall2
      (λ source r,
         Recession r
         = Loader.fillna_astype_int
             (Loader.to_numeric to_numeric_literal (Loader.raw_Recession source))
         ∧ (Loader.to_numeric to_numeric_literal (Loader.raw_Recession source)
            = None → Recession r = 0)
         ∧ ("Vehicle_Type" ∉ Loader.columns raw_bare →
            Vehicle_Type r = Some "Unknown")
         ∧ ("Vehicle_Type" ∈ Loader.columns raw_bare →
            Vehicle_Type r = Loader.raw_Vehicle_Type source))
      (Loader.rows raw_bare)
      [{| Year := Some 2019; Month := Some "1"; Recession := 0;
          Automobile_Sales := Some 0%Q; Vehicle_Type := Some "Unknown";
          Advertising_Expenditure := Some 0%Q; unemployment_rate := None |}].
Proof.
  apply (clean_defaults to_numeric_literal repr_none raw_bare).
  vm_compute. reflexivity.
Defined.


Lemma by_type_mean_per_vehicle_type_witness :
  mean_of
    (sales_where (λ r, Year r = Some 2019 ∧ Vehicle_Type r = Some "Sedan")
       table_numeric)
    (Some (32 # 2)%Q).
Proof.
  apply (by_type_mean_per_vehicle_type table_numeric 2019).
  vm_compute. left.
Defined.

Lemma yearly_average_over_whole_table_witness :
  mean_of (sales_where (λ r, Year r = Some 2019) table_numeric)
    (Some (82 # 4)%Q).
Proof.
  apply (yearly_average_over_whole_table table_numeric).
  vm_compute. right. left.
Defined.

Lemma default_year_is_max_witness :
  ∃ m,
    year_dd (layout (years (load table_numeric))) = Some m
    ∧ (∃ r, r ∈ table_numeric ∧ Year r = Some m)
    ∧ (∀ r y, r ∈ table_numeric → Year r = Some y → y ≤ m)
    ∧ charts table_numeric "Yearly Statistics" None
      = yearly_figures table_numeric (Some m)
    ∧ charts table_numeric "Yearly Statistics" None
      = charts table_numeric "Yearly Statistics" (Some m).
Proof.
  apply (default_year_is_max table_numeric).
  eexists _, 2019. split; [left|reflexivity].
Defined.

Lemma recession_without_records_witness :
  Loader.clean_frame to_numeric_literal repr_none raw_header_only
  = Some {| records := []; Automobile_Sales_dtype := object;
            Advertising_Expenditure_dtype := object |}
  ∧ update_charts_outcome
      {| records := []; Automobile_Sales_dtype := object;
         Advertising_Expenditure_dtype := object |}
      "Recession Period Statistics" None
    = Raises TypeError.
Proof.
  split; [vm_compute; reflexivity|].
  apply (recession_without_records
           {| records := []; Automobile_Sales_dtype := object;
              Advertising_Expenditure_dtype := object |} None).
  intros r Hr. by apply elem_of_nil in Hr.
Defined.

Lemma null_year_excluded_witness :
  ∃ r, r ∈ table_null_year ∧ Year r = Some 2019.
Proof.
  apply (null_year_excluded table_null_year) with (v := Some 100%Q).
  vm_compute. left.
Defined.

Lemma yearly_branch_only_on_equality_witness :
  charts table_2020 "yearly statistics" (Some 2020)
  = recession_figures table_2020.
Proof.
  apply (yearly_branch_only_on_equality "yearly statistics" table_2020
           (Some 2020) (layout [2020])).
  discriminate.
Defined.

(** * Further properties of the script *)

(** ** Sums over the groups of a frame *)

Lemma total_app (xs ys : list Q) : (total (xs ++ ys) == total xs + total ys)%Q.
Proof.
  induction xs as [|x xs IH]; simpl.
  - symmetry. apply Qplus_0_l.
  - rewrite IH. apply Qplus_assoc.
Qed.

Lemma total_Permutation (xs ys : list Q) :
  xs ≡ₚ ys → (total xs == total ys)%Q.
Proof.
  induction 1 as [|x xs ys _ IH|x y xs|xs ys zs _ IH1 _ IH2]; simpl.
  - reflexivity.
  - by rewrite IH.
  - rewrite !Qplus_assoc. by rewrite (Qplus_comm y x).
  - by rewrite IH1.
Qed.

Lemma total_fmap_ext {K} (g h : K → Q) (ks : list K) :
  (∀ k, k ∈ ks → (g k == h k)%Q) →
  (total (g <$> ks) == total (h <$> ks))%Q.
Proof.
  induction ks as [|k ks IH]; intros Hgh; simpl; [reflexivity|].
  rewrite (Hgh k) by left. rewrite IH; [reflexivity|].
  intros k' Hk'. apply Hgh. by right.
Qed.

Lemma total_fmap_plus {K} (g h : K → Q) (ks : list K) :
  (total ((λ k, g k + h k)%Q <$> ks) == total (g <$> ks) + total (h <$> ks))%Q.
Proof.
  induction ks as [|k ks IH]; [reflexivity|].
  rewrite !fmap_cons. cbn [total]. rewrite IH. ring.
Qed.

Lemma total_zeros {K} (ks : list K) : (total ((λ _, 0%Q) <$> ks) == 0)%Q.
Proof.
  induction ks as [|k ks IH]; [reflexivity|].
  rewrite fmap_cons. cbn [total]. rewrite IH. apply Qplus_0_l.
Qed.

Lemma total_indicator `{EqDecision K} (k0 : K) (c : Q) (ks : list K) :
  NoDup ks →
  (total ((λ k, if decide (k = k0) then c else 0%Q) <$> ks)
   == if decide (k0 ∈ ks) then c else 0)%Q.
Proof.
  induction 1 as [|k ks Hk Hks IH]; [reflexivity|].
  rewrite fmap_cons. cbn [total].
  rewrite IH. destruct (decide (k = k0)) as [->|Hne].
  - rewrite decide_False by done. rewrite decide_True by left. ring.
  - destruct (decide (k0 ∈ ks)) as [Hin|Hnin].
    + rewrite decide_True by (by right). ring.
    + rewrite decide_False; [ring|].
      intros [->|?]%list.elem_of_cons; done.
Qed.

Section sums_over_groups.
Context {A K : Type} `{EqDecision K}.
Context (key : A → option K) (w : A → Q).

(** The weights of the rows, group by group, add up to the weights of the
    rows that have a key, when [ks] lists every key once. *)
Lemma total_by_key (ks : list K) (rows : list A) :
  NoDup ks →
  (∀ r k, r ∈ rows → key r = Some k → k ∈ ks) →
  (total ((λ k, total (w <$> filter (λ r, key r = Some k) rows)) <$> ks)
   == total (w <$> filter (λ r, is_Some (key r)) rows))%Q.
Proof.
  intros Hks. induction rows as [|r rows IH]; intros Hall.
  - etransitivity; [|apply (total_zeros ks)].
    apply total_fmap_ext. intros k _. reflexivity.
  - assert (∀ r' k, r' ∈ rows → key r' = Some k → k ∈ ks) as Hall'.
    { intros r' k Hr'. apply Hall. by right. }
    specialize (IH Hall'). destruct (key r) as [k0|] eqn:E.
    + rewrite (filter_cons_True (λ r, is_Some (key r))) by (rewrite E; eauto).
      rewrite fmap_cons. simpl. rewrite <- IH.
      rewrite (total_fmap_ext _
        (λ k, (if decide (k = k0) then w r else 0)
              + total (w <$> filter (λ r, key r = Some k) rows))%Q).
      * rewrite total_fmap_plus, total_indicator by done.
        rewrite decide_True; [reflexivity|]. apply (Hall r); [left|done].
      * intros k _. rewrite filter_cons.
        destruct (decide (key r = Some k)) as [Hk|Hk].
        -- rewrite decide_True by congruence. reflexivity.
        -- rewrite decide_False by congruence. symmetry. apply Qplus_0_l.
    + rewrite (filter_cons_False (λ r, is_Some (key r)))
        by (rewrite E; by intros [? ?]).
      rewrite <- IH. apply total_fmap_ext. intros k _.
      rewrite filter_cons_False by congruence. reflexivity.
Qed.
End sums_over_groups.

Lemma total_omap {A} (col : A → option Q) (l : list A) :
  (total (omap col l) == total ((λ r, default 0%Q (col r)) <$> l))%Q.
Proof.
  induction l as [|r l IH]; [reflexivity|].
  rewrite fmap_cons. simpl. destruct (col r) as [q|]; simpl.
  - apply Qplus_comp; [reflexivity|exact IH].
  - rewrite Qplus_0_l. exact IH.
Qed.

(** The sums of a grouped column add up to the sum of the column over the
    rows that have a key. *)
Lemma groupby_nansum_total {A K} `{EqDecision K} (le : relation K)
    `{!RelDecision le} (key : A → option K) (col : A → option Q)
    (rows : list A) :
  (total (groupby_agg le key col nansum rows).*2
   == total (omap col (filter (λ r, is_Some (key r)) rows)))%Q.
Proof.
  unfold groupby_agg, groupby. rewrite <- !list_fmap_compose.
  rewrite total_omap.
  rewrite <- (total_by_key key _ (group_keys le key rows)).
  - apply total_fmap_ext. intros k _. simpl. unfold nansum.
    by rewrite Qsum_total, omap_id_fmap, total_omap.
  - apply group_keys_NoDup.
  - intros r k Hr Hk. apply elem_of_group_keys. eauto.
Qed.

Lemma str_le_total : Total str_le.
Proof.
  intros s1 s2. unfold str_le.
  destruct (String.leb_total s1 s2) as [-> | ->]; [by left|by right].
Qed.

Lemma elem_of_rec table r : r ∈ rec table ↔ r ∈ table ∧ Recession r = 1.
Proof. unfold rec. rewrite list_elem_of_filter. tauto. Qed.

Lemma filter_rec (P : SalesRecord → Prop) `{∀ r, Decision (P r)} table :
  filter P (rec table) = filter (λ r, Recession r = 1 ∧ P r) table.
Proof.
  unfold rec. rewrite list_filter_filter. apply list_filter_iff.
  intros r. tauto.
Qed.

(** ** The advertising shares of the yearly report (lines 173 to 179) *)

(** Chart slot 4 of the yearly report for the year [Y]: one slice for each
    vehicle type that occurs among the records of [Y], in the order of the
    type names; the slice is the sum of the advertising expenditure of the
    records of that year and type, and the slices add up to the expenditure
    of all the records of [Y] that have a vehicle type. *)
Theorem adv_sum_per_vehicle_type (table : list SalesRecord) (Y : Z) :
  let result := adv (dff table (Some Y)) in
  NoDup result.*1
  ∧ Sorted str_le result.*1
  ∧ (∀ t, t ∈ result.*1 ↔
       ∃ r, r ∈ table ∧ Year r = Some Y ∧ Vehicle_Type r = Some t)
  ∧ (∀ t v, (t, v) ∈ result →
       (v == total (omap Advertising_Expenditure
                      (filter (λ r, Year r = Some Y ∧ Vehicle_Type r = Some t)
                         table)))%Q)
  ∧ (total result.*2
     == total (omap Advertising_Expenditure
                 (filter (λ r, Year r = Some Y ∧ is_Some (Vehicle_Type r))
                    table)))%Q
  ∧ (charts table "Yearly Statistics" (Some Y)).2
    = if empty result
      then NoData ("Ad Expenditure Share by Vehicle Type — " +:+ pretty Y)
      else PieByType result
             ("Ad Expenditure Share by Vehicle Type — " +:+ pretty Y).
Proof.
  intros result. unfold result, adv.
  split; [|split; [|split; [|split; [|split]]]].
  - rewrite groupby_agg_keys. apply group_keys_NoDup.
  - rewrite groupby_agg_keys. apply group_keys_Sorted, str_le_total.
  - intros t. rewrite groupby_agg_keys, elem_of_group_keys. split.
    + intros (r & [Hr Hy]%elem_of_dff & Ht). eauto.
    + intros (r & Hr & Hy & Ht). exists r. by rewrite elem_of_dff.
  - intros t v [_ ->]%elem_of_groupby_agg. unfold nansum.
    by rewrite Qsum_total, omap_id_fmap, filter_dff.
  - by rewrite groupby_nansum_total, filter_dff.
  - done.
Qed.

(** ** The monthly totals add up (lines 151 to 163) *)

(** Whatever the month labels are, the values of the monthly chart of the
    year [Y] add up to the sales of the records of [Y] that have a month:
    the grouping and the reordering of the [try] block lose and repeat none
    of them, and a record without a month is in no row. *)
Theorem monthly_totals_add_up (table : list SalesRecord) (Y : Z) :
  (total (monthly (dff table (Some Y))).*1.*2
   == total (sales_where (λ r, Year r = Some Y ∧ is_Some (Month r)) table))%Q.
Proof.
  unfold monthly.
  rewrite (total_Permutation _ (monthly_grouped (dff table (Some Y))).*2)
    by (apply fmap_Permutation, try_Month_num_rows).
  unfold monthly_grouped. by rewrite groupby_nansum_total, filter_dff.
Qed.

(** ** The frames of the recession report (lines 183 to 221) *)

(** Chart slot 1 of the recession report: its years are the years of the
    records with [Recession == 1], in strictly ascending order, each with the
    mean of the sales of the recession records of that year. *)
Theorem rec_yearly_mean_per_year (table : list SalesRecord)
    (year_value : option Z) :
  let result := rec_yearly (rec table) in
  Sorted Z.lt result.*1
  ∧ (∀ y, y ∈ result.*1 ↔
       ∃ r, r ∈ table ∧ Recession r = 1 ∧ Year r = Some y)
  ∧ (∀ y v, (y, v) ∈ result →
       mean_of (sales_where (λ r, Recession r = 1 ∧ Year r = Some y) table) v)
  ∧ (charts table "Recession Period Statistics" year_value).1.1.1
    = if empty result
      then NoData "Avg Automobile Sales during Recession (Year-wise)"
      else LineByYear result
             "Avg Automobile Sales during Recession (Year-wise)".
Proof.
  intros result. unfold result, rec_yearly. rewrite groupby_agg_keys.
  split; [|split; [|split]].
  - apply Sorted_le_NoDup_lt; [apply group_keys_Sorted, _|apply group_keys_NoDup].
  - intros y. rewrite elem_of_group_keys. split.
    + intros (r & [Hr Hrec]%elem_of_rec & Hy). eauto.
    + intros (r & Hr & Hrec & Hy). exists r. by rewrite elem_of_rec.
  - intros y v [_ ->]%elem_of_groupby_agg. unfold sales_where.
    rewrite filter_rec, <- omap_id_fmap. apply nanmean_mean_of.
  - by rewrite charts_recession.
Qed.

(** Chart slot 2 of the recession report: one bar for each vehicle type
    among the records with [Recession == 1], in the order of the type names,
    with the mean of the sales of the recession records of that type. *)
Theorem rec_type_avg_mean_per_type (table : list SalesRecord)
    (year_value : option Z) :
  let result := rec_type_avg (rec table) in
  NoDup result.*1
  ∧ Sorted str_le result.*1
  ∧ (∀ t, t ∈ result.*1 ↔
       ∃ r, r ∈ table ∧ Recession r = 1 ∧ Vehicle_Type r = Some t)
  ∧ (∀ t v, (t, v) ∈ result →
       mean_of
         (sales_where (λ r, Recession r = 1 ∧ Vehicle_Type r = Some t) table) v)
  ∧ (charts table "Recession Period Statistics" year_value).1.1.2
    = if empty result
      then NoData "Avg Vehicles Sold by Vehicle Type (Recession)"
      else BarByType result "Avg Vehicles Sold by Vehicle Type (Recession)".
Proof.
  intros result. unfold result, rec_type_avg. rewrite groupby_agg_keys.
  split; [|split; [|split; [|split]]].
  - apply group_keys_NoDup.
  - apply group_keys_Sorted, str_le_total.
  - intros t. rewrite elem_of_group_keys. split.
    + intros (r & [Hr Hrec]%elem_of_rec & Ht). eauto.
    + intros (r & Hr & Hrec & Ht). exists r. by rewrite elem_of_rec.
  - intros t v [_ ->]%elem_of_groupby_agg. unfold sales_where.
    rewrite filter_rec, <- omap_id_fmap. apply nanmean_mean_of.
  - by rewrite charts_recession.
Qed.

(** Chart slot 3 of the recession report: one slice for each vehicle type
    among the records with [Recession == 1], with the sum of their
    advertising expenditure; the slices add up to the expenditure of all the
    recession records that have a vehicle type. *)
Theorem rec_adv_sum_per_type (table : list SalesRecord)
    (year_value : option Z) :
  let result := rec_adv (rec table) in
  NoDup result.*1
  ∧ (∀ t, t ∈ result.*1 ↔
       ∃ r, r ∈ table ∧ Recession r = 1 ∧ Vehicle_Type r = Some t)
  ∧ (∀ t v, (t, v) ∈ result →
       (v == total (omap Advertising_Expenditure
                      (filter (λ r, (Recession r = 1)%Z ∧ Vehicle_Type r = Some t)
                         table)))%Q)
  ∧ (total result.*2
     == total (omap Advertising_Expenditure
                 (filter (λ r, (Recession r = 1)%Z ∧ is_Some (Vehicle_Type r))
                    table)))%Q
  ∧ (charts table "Recession Period Statistics" year_value).1.2
    = if empty result
      then NoData "Ad Expenditure Share by Vehicle Type (Recession)"
      else PieByType result "Ad Expenditure Share by Vehicle Type (Recession)".
Proof.
  intros result. unfold result, rec_adv.
  split; [|split; [|split; [|split]]].
  - rewrite groupby_agg_keys. apply group_keys_NoDup.
  - intros t. rewrite groupby_agg_keys, elem_of_group_keys. split.
    + intros (r & [Hr Hrec]%elem_of_rec & Ht). eauto.
    + intros (r & Hr & Hrec & Ht). exists r. by rewrite elem_of_rec.
  - intros t v [_ ->]%elem_of_groupby_agg. unfold nansum.
    by rewrite Qsum_total, omap_id_fmap, filter_rec.
  - by rewrite groupby_nansum_total, filter_rec.
  - by rewrite charts_recession.
Qed.

Lemma update_charts_outcome_float (frame : DataFrame) report_type year_value :
  Automobile_Sales_dtype frame = float64 →
  Advertising_Expenditure_dtype frame = float64 →
  update_charts_outcome frame report_type year_value
  = if decide (report_type = "Yearly Statistics")
    then Returns (charts (records frame) report_type year_value)
    else if forallb valid_size (rec_u (rec (records frame)))
         then Returns (charts (records frame) report_type year_value)
         else Raises ValueError.
Proof.
  intros Hs Ha. unfold update_charts_outcome, px_scatter_sizes.
  rewrite Hs, Ha. case_decide; [done|].
  cbn [numeric_only mbind outcome_bind]. by destruct (forallb _ _).
Qed.

Lemma update_charts_outcome_object (frame : DataFrame) report_type year_value :
  Automobile_Sales_dtype frame = object
  ∨ Advertising_Expenditure_dtype frame = object →
  update_charts_outcome frame report_type year_value = Raises TypeError.
Proof.
  intros Hd. unfold update_charts_outcome.
  destruct (Automobile_Sales_dtype frame), (Advertising_Expenditure_dtype frame);
    try (by destruct Hd); by case_decide.
Qed.


(** ** When a slot shows the placeholder *)

Lemma empty_true {A} (l : list A) : empty l = true ↔ l = [].
Proof. by destruct l. Qed.

Lemma groupby_agg_nil {A K V W} `{EqDecision K} (le : relation K)
    `{!RelDecision le} (key : A → option K) (col : A → V)
    (agg : list V → W) (rows : list A) :
  groupby_agg le key col agg rows = [] ↔ ∀ r, r ∈ rows → key r = None.
Proof.
  split.
  - intros Hnil r Hr. destruct (key r) as [k|] eqn:E; [|done].
    assert (k ∈ (groupby_agg le key col agg rows).*1) as Hk.
    { rewrite groupby_agg_keys. apply elem_of_group_keys. eauto. }
    rewrite Hnil in Hk. by apply elem_of_nil in Hk.
  - intros Hnone. apply (fmap_nil_inv fst). rewrite groupby_agg_keys.
    destruct (group_keys le key rows) as [|k ks] eqn:E; [done|].
    assert (k ∈ group_keys le key rows) as Hk by (rewrite E; left).
    apply elem_of_group_keys in Hk as (r & Hr & Hkey).
    rewrite (Hnone r Hr) in Hkey. done.
Qed.

Lemma try_Month_num_nil monthly : try_Month_num monthly = [] ↔ monthly = [].
Proof.
  split.
  - intros Hnil. pose proof (try_Month_num_rows monthly) as Hp.
    rewrite Hnil in Hp. symmetry. by apply Permutation_nil_l.
  - by intros ->.
Qed.

Lemma placeholder_or_chart {A} (frame : list A) (title : string) (g : figure) :
  is_placeholder g = false →
  is_placeholder (if empty frame then _empty_fig title else g) = true
  ↔ frame = [].
Proof. intros Hg. destruct frame; simpl; [done|]. by rewrite Hg. Qed.

Lemma yearly_nil table : yearly table = [] ↔ ∀ r, r ∈ table → Year r = None.
Proof. apply groupby_agg_nil. Qed.

Lemma monthly_nil table (Y : Z) :
  monthly (dff table (Some Y)) = []
  ↔ ∀ r, r ∈ table → Year r = Some Y → Month r = None.
Proof.
  unfold monthly, monthly_grouped. rewrite try_Month_num_nil, groupby_agg_nil.
  split.
  - intros Hnil r Hr Hy. apply Hnil. by apply elem_of_dff.
  - intros Hnone r [Hr Hy]%elem_of_dff. auto.
Qed.

Lemma by_type_nil table (Y : Z) :
  by_type (dff table (Some Y)) = []
  ↔ ∀ r, r ∈ table → Year r = Some Y → Vehicle_Type r = None.
Proof.
  unfold by_type. rewrite groupby_agg_nil. split.
  - intros Hnil r Hr Hy. apply Hnil. by apply elem_of_dff.
  - intros Hnone r [Hr Hy]%elem_of_dff. auto.
Qed.

Lemma adv_nil table (Y : Z) :
  adv (dff table (Some Y)) = []
  ↔ ∀ r, r ∈ table → Year r = Some Y → Vehicle_Type r = None.
Proof.
  unfold adv. rewrite groupby_agg_nil. split.
  - intros Hnil r Hr Hy. apply Hnil. by apply elem_of_dff.
  - intros Hnone r [Hr Hy]%elem_of_dff. auto.
Qed.

(** The yearly report for the year [Y].  When the sales or the expenditure
    column is of dtype object the callback raises a [TypeError].  For float
    columns it returns four figures: slot 1 is the placeholder exactly when
    no record has a year, slot 2 exactly when no record of the year [Y] has a
    month, and slots 3 and 4 exactly when no record of [Y] has a vehicle
    type. *)
Theorem yearly_placeholders (frame : DataFrame) (Y : Z) :
  let table := records frame in
  let run := update_charts_outcome frame "Yearly Statistics" (Some Y) in
  (Automobile_Sales_dtype frame = object
   ∨ Advertising_Expenditure_dtype frame = object →
   run = Raises TypeError)
  ∧ (Automobile_Sales_dtype frame = float64 →
     Advertising_Expenditure_dtype frame = float64 →
     ∃ fig1 fig2 fig3 fig4,
       run = Returns (fig1, fig2, fig3, fig4)
       ∧ (is_placeholder fig1 = true ↔ ∀ r, r ∈ table → Year r = None)
       ∧ (is_placeholder fig2 = true ↔
          ∀ r, r ∈ table → Year r = Some Y → Month r = None)
       ∧ (is_placeholder fig3 = true ↔
          ∀ r, r ∈ table → Year r = Some Y → Vehicle_Type r = None)
       ∧ (is_placeholder fig4 = true ↔
          ∀ r, r ∈ table → Year r = Some Y → Vehicle_Type r = None)).
Proof.
  intros table run. split; [apply update_charts_outcome_object|].
  intros Hs Ha. unfold run. rewrite update_charts_outcome_float by done.
  rewrite decide_True by done.
  unfold charts. rewrite update_charts_yearly.
  unfold yearly_figures, or_last_year. cbn [fst snd df load].
  eexists _, _, _, _. split; [done|].
  rewrite !placeholder_or_chart by done.
  split; [apply yearly_nil|]. split; [apply monthly_nil|].
  split; [apply by_type_nil|apply adv_nil].
Qed.

(** The recession report.  When the sales or the expenditure column is of
    dtype object the callback raises a [TypeError].  For float columns, and
    when the sales of every record of slot 4 are a valid marker size, it
    returns four figures: slot 1 is the placeholder exactly when no recession
    record has a year, and slots 2 and 3 exactly when no recession record
    has a vehicle type. *)
Theorem recession_placeholders (frame : DataFrame) (year_value : option Z) :
  let table := records frame in
  let run :=
    update_charts_outcome frame "Recession Period Statistics" year_value in
  (Automobile_Sales_dtype frame = object
   ∨ Advertising_Expenditure_dtype frame = object →
   run = Raises TypeError)
  ∧ (Automobile_Sales_dtype frame = float64 →
     Advertising_Expenditure_dtype frame = float64 →
     (∀ r, r ∈ rec_u (rec table) → valid_size r = true) →
     ∃ fig1 fig2 fig3 fig4,
       run = Returns (fig1, fig2, fig3, fig4)
       ∧ (is_placeholder fig1 = true ↔
          ∀ r, r ∈ table → Recession r = 1 → Year r = None)
       ∧ (is_placeholder fig2 = true ↔
          ∀ r, r ∈ table → Recession r = 1 → Vehicle_Type r = None)
       ∧ (is_placeholder fig3 = true ↔
          ∀ r, r ∈ table → Recession r = 1 → Vehicle_Type r = None)).
Proof.
  intros table run. split; [apply update_charts_outcome_object|].
  intros Hs Ha Hvalid. unfold run, table in *.
  rewrite update_charts_outcome_float by done. rewrite decide_False by done.
  rewrite (proj2 (forallb_valid_size _) Hvalid).
  rewrite charts_recession. unfold recession_figures.
  eexists _, _, _, _. split; [done|].
  rewrite !placeholder_or_chart by done.
  unfold rec_yearly, rec_type_avg, rec_adv. rewrite !groupby_agg_nil.
  assert (∀ P : SalesRecord → Prop,
            (∀ r, r ∈ rec (records frame) → P r)
            ↔ (∀ r, r ∈ records frame → Recession r = 1 → P r)) as Hrec.
  { intros P. split.
    - intros H r Hr Hrec. apply H, elem_of_rec. done.
    - intros H r [Hr Hrec]%elem_of_rec. auto. }
  split; [apply (Hrec (λ r, Year r = None))|].
  split; apply (Hrec (λ r, Vehicle_Type r = None)).
Qed.

(** ** A table without any year (lines 68, 133 and 134) *)

Lemma dff_None table : dff table None = [].
Proof.
  unfold dff. induction table as [|r table IH]; [done|].
  rewrite filter_cons_False; [exact IH|]. by intros [[? ?] _].
Qed.

(** When no record has a year, which includes the empty table, the year
    dropdown has no option and no value, and [update_charts] called with no
    year keeps it null.  For float columns the yearly report is then four
    placeholders, the three of the selected year titled with the text
    [None]; when the sales or the expenditure column is of dtype object, as
    for a source that is the header line alone, the callback raises a
    [TypeError]. *)
Theorem no_year_no_chart (frame : DataFrame) :
  (∀ r, r ∈ records frame → Year r = None) →
  year_dd_options (years (load (records frame))) = []
  ∧ year_dd (layout (years (load (records frame)))) = None
  ∧ update_charts_outcome frame "Yearly Statistics" None
    = match Automobile_Sales_dtype frame, Advertising_Expenditure_dtype frame
      with
      | float64, float64 =>
          Returns
            (NoData "Yearly Automobile Sales (Average)",
             NoData "Total Monthly Automobile Sales — None",
             NoData "Average Vehicles Sold by Vehicle Type — None",
             NoData "Ad Expenditure Share by Vehicle Type — None")
      | _, _ => Raises TypeError
      end.
Proof.
  intros Hnone.
  assert (compute_years (records frame) = []) as Hyears.
  { destruct (compute_years (records frame)) as [|y ys] eqn:E; [done|].
    assert (y ∈ compute_years (records frame)) as Hy by (rewrite E; left).
    apply elem_of_compute_years in Hy as (r & Hr & Hy).
    rewrite (Hnone r Hr) in Hy. done. }
  simpl. rewrite Hyears. split; [done|]. split; [done|].
  destruct (Automobile_Sales_dtype frame) eqn:Hs;
    [|by apply update_charts_outcome_object; left].
  destruct (Advertising_Expenditure_dtype frame) eqn:Ha;
    [|by apply update_charts_outcome_object; right].
  rewrite update_charts_outcome_float by done. rewrite decide_True by done.
  unfold charts. rewrite update_charts_yearly. simpl. rewrite Hyears.
  unfold yearly_figures, or_last_year. simpl.
  apply yearly_nil in Hnone. rewrite Hnone.
  by rewrite dff_None.
Qed.

(** ** The year dropdown and the charts *)

(** The year dropdown is disabled for exactly the report types whose four
    figures do not depend on the selected year. *)
Theorem year_ignored_iff_disabled (report_type : string) :
  (toggle_year_dropdown report_type).1 = true
  ↔ ∀ table year_value year_value',
      charts table report_type year_value
      = charts table report_type year_value'.
Proof.
  unfold toggle_year_dropdown.
  destruct (decide (report_type = "Yearly Statistics")) as [->|Hne]; simpl.
  - split; [done|]. intros Hsame.
    specialize (Hsame [] (Some 1) (Some 2)). vm_compute in Hsame.
    discriminate.
  - split; [|done]. intros _ table year_value year_value'.
    unfold charts. by rewrite !update_charts_recession.
Qed.

(** The years along chart slot 1 of the yearly report are the values of the
    year dropdown, in the same strictly ascending order, and no two options
    of the dropdown carry the same label. *)
Theorem chart_years_are_dropdown_years (table : list SalesRecord) :
  (yearly table).*1 = years (load table)
  ∧ (year_dd_options (years (load table))).*2 = years (load table)
  ∧ Sorted Z.lt (years (load table))
  ∧ NoDup (year_dd_options (years (load table))).*1.
Proof.
  simpl. split; [apply groupby_agg_keys|]. split; [|split].
  - unfold year_dd_options. rewrite <- list_fmap_compose. apply list_fmap_id.
  - apply Sorted_le_NoDup_lt; [apply compute_years_Sorted|apply compute_years_NoDup].
  - unfold year_dd_options. rewrite <- list_fmap_compose.
    apply (NoDup_fmap_2 pretty), compute_years_NoDup.
Qed.

Lemma session_snoc years events e :
  session years (events ++ [e]) = on_event (session years events) e.
Proof. unfold session. by rewrite foldl_snoc. Qed.

(** Through any series of changes to the two dropdowns, the year dropdown is
    disabled exactly when the report is not the yearly one, and a change of
    report leaves the selected year as it is. *)
Theorem session_keeps_year_dropdown_in_step (years : list Z)
    (events : list event) :
  year_dd_disabled (session years events)
  = (toggle_year_dropdown (report_dd (session years events))).1
  ∧ (year_dd_disabled (session years events) = false
     ↔ report_dd (session years events) = "Yearly Statistics")
  ∧ ∀ value,
      year_dd (session years (events ++ [ReportChanged value]))
      = year_dd (session years events).
Proof.
  assert (year_dd_disabled (session years events)
          = (toggle_year_dropdown (report_dd (session years events))).1) as Hinv.
  { induction events as [|e events IH] using rev_ind; [done|].
    rewrite session_snoc. destruct e as [value|value]; simpl.
    - unfold set_report_dd.
      destruct (toggle_year_dropdown value) as [disabled help] eqn:E.
      simpl. by rewrite E.
    - exact IH. }
  split; [exact Hinv|]. split.
  - rewrite Hinv. unfold toggle_year_dropdown. by case_decide.
  - intros value. rewrite session_snoc. simpl. unfold set_report_dd.
    by destruct (toggle_year_dropdown value).
Qed.

(** ** More of the loader (lines 20 to 32) *)



Lemma whole_number (q : Q) :
  Qden (Qred q) = 1%positive ∧ - 2 ^ 63 ≤ Qnum (Qred q) < 2 ^ 63
  ↔ ∃ z, (q == inject_Z z)%Q ∧ - 2 ^ 63 ≤ z < 2 ^ 63.
Proof.
  split.
  - intros [Hd Hrange]. exists (Qnum (Qred q)). split; [|done].
    rewrite <- (Qred_correct q) at 1.
    destruct (Qred q) as [n d]. simpl in *. by subst.
  - intros (z & Hz & Hrange). apply Qred_complete in Hz. rewrite Hz.
    rewrite Qcanon.Qred_identity; [done|]. simpl. apply Z.gcd_1_r.
Qed.

Section more_loader_facts.
Import Loader.
Variable to_numeric_str : string → option Q.
Variable repr_float : Q → string.

Lemma astype_Int64_None (v : option Q) :
  astype_Int64 v = None
  ↔ ∃ q, v = Some q ∧ ¬ ∃ z, (q == inject_Z z)%Q ∧ - 2 ^ 63 ≤ z < 2 ^ 63.
Proof.
  destruct v as [q|]; simpl.
  - case_decide as Hd; split; try done.
    + intros (q' & [= <-] & Hq). by apply whole_number in Hd.
    + intros _. exists q. split; [done|]. by rewrite <- whole_number.
  - split; [done|]. by intros (q & [=] & _).
Qed.

Lemma clean_row_inv cols source r :
  clean_row to_numeric_str repr_float cols source = Some r →
  astype_Int64 (to_numeric to_numeric_str (raw_Year source)) = Some (Year r)
  ∧ Month r = Series_astype_str repr_float (raw_Month source)
  ∧ Recession r
    = fillna_astype_int (to_numeric to_numeric_str (raw_Recession source))
  ∧ Automobile_Sales r
    = fallback cols "Automobile_Sales" (Some 0%Q) (raw_Automobile_Sales source)
  ∧ Vehicle_Type r
    = fallback cols "Vehicle_Type" (Some "Unknown") (raw_Vehicle_Type source)
  ∧ Advertising_Expenditure r
    = fallback cols "Advertising_Expenditure" (Some 0%Q)
        (raw_Advertising_Expenditure source)
  ∧ unemployment_rate r
    = fallback cols "unemployment_rate" None (raw_unemployment_rate source).
Proof.
  unfold clean_row. intros Hr.
  destruct (astype_Int64 _) as [y|]; simpl in Hr; [|done].
  by injection Hr as <-.
Qed.

Lemma clean_Forall2 raw table :
  clean to_numeric_str repr_float raw = Some table →
  Forall2 (λ source r,
             clean_row to_numeric_str repr_float (columns raw) source = Some r)
          (rows raw) table.
Proof. unfold clean. case_decide; [|done]. apply mapM_Some. Qed.

Lemma clean_elem_of raw table r :
  clean to_numeric_str repr_float raw = Some table →
  r ∈ table →
  ∃ source,
    source ∈ rows raw
    ∧ clean_row to_numeric_str repr_float (columns raw) source = Some r.
Proof.
  intros Hclean%clean_Forall2 Hr.
  induction Hclean as [|source r' sources table Hrow _ IH].
  - by apply elem_of_nil in Hr.
  - apply list.elem_of_cons in Hr as [->|Hr].
    + exists source. split; [left|done].
    + destruct (IH Hr) as (source' & Hin & Hrow'). exists source'.
      split; [by right|done].
Qed.
End more_loader_facts.

(** The load raises when one of the columns [Year], [Month] and [Recession]
    is missing, and when some [Year] cell reads as a number that is not
    whole or that does not fit a 64-bit integer. *)
Theorem clean_raises_when (to_numeric_str : string → option Q)
    (repr_float : Q → string) (raw : Loader.RawFrame) :
  ¬ ("Year" ∈ Loader.columns raw ∧ "Month" ∈ Loader.columns raw
     ∧ "Recession" ∈ Loader.columns raw)
  ∨ (∃ source q,
       source ∈ Loader.rows raw
       ∧ Loader.to_numeric to_numeric_str (Loader.raw_Year source) = Some q
       ∧ ¬ ∃ z, (q == inject_Z z)%Q ∧ - 2 ^ 63 ≤ z < 2 ^ 63) →
  Loader.clean to_numeric_str repr_float raw = None.
Proof.
  unfold Loader.clean. case_decide as Hcols; [|done].
  intros [?|(source & q & Hin & Hq & Hwhole)]; [done|].
  rewrite mapM_None, list.Exists_exists.
  exists source. split; [done|]. unfold Loader.clean_row.
  assert (Loader.astype_Int64
            (Loader.to_numeric to_numeric_str (Loader.raw_Year source))
          = None) as ->; [|done].
  apply astype_Int64_None. eauto.
Qed.


(** A month cell that holds an integer is printed by [astype(str)] as a
    label that [astype(int)] reads back as that integer; an integer that
    does not fit 64 bits would not be read back. *)
Theorem int_month_label_round_trip (repr_float : Q → string) (z : Z) :
  (- 2 ^ 63 ≤ z < 2 ^ 63 →
   astype_int (Loader.astype_str repr_float (Int z)) = Some z)
  ∧ (¬ - 2 ^ 63 ≤ z < 2 ^ 63 →
     astype_int (Loader.astype_str repr_float (Int z)) = None).
Proof.
  split; intros Hz; simpl.
  - by apply astype_int_pretty.
  - unfold astype_int. rewrite py_int_pretty. simpl. by rewrite decide_False.
Qed.

(** A source whose [Month] column holds integers gives, for every year, a
    monthly chart in ascending order of the month numbers, each row carrying
    its number in [Month_num]. *)
Theorem integer_months_sorted_by_number (to_numeric_str : string → option Q)
    (repr_float : Q → string) (raw : Loader.RawFrame)
    (table : list SalesRecord) (Y : Z) :
  Loader.clean to_numeric_str repr_float raw = Some table →
  (∀ source, source ∈ Loader.rows raw →
     ∃ z, Loader.raw_Month source = Int z ∧ - 2 ^ 63 ≤ z < 2 ^ 63) →
  ascending_by_number (monthly (dff table (Some Y))).*1.*1
  ∧ ∀ row, row ∈ monthly (dff table (Some Y)) →
      ∃ z, row.1.1 = pretty z ∧ row.2 = Some z.
Proof.
  intros Hclean Hint.
  assert (∀ row, row ∈ monthly_grouped (dff table (Some Y)) →
            ∃ z, row.1 = pretty z ∧ astype_int row.1 = Some z) as Hlabels.
  { intros [m v] [Hm _]%elem_of_groupby_agg.
    apply elem_of_group_keys in Hm as (r & [Hr _]%elem_of_dff & Hkey).
    destruct (clean_elem_of _ _ _ _ _ Hclean Hr) as (source & Hin & Hrow).
    apply clean_row_inv in Hrow as (_ & Hmonth & _).
    destruct (Hint source Hin) as (z & Hcell & Hz).
    rewrite Hmonth, Hcell in Hkey. injection Hkey as <-.
    exists z. split; [done|]. by apply astype_int_pretty. }
  destruct (try_Month_num_numeric (monthly_grouped (dff table (Some Y))))
    as [Hasc Hnum].
  { intros row (z & _ & Hz)%Hlabels. by eexists. }
  split; [exact Hasc|]. intros row Hrow.
  pose proof (Hnum row Hrow) as Hrow2.
  assert (row.1 ∈ monthly_grouped (dff table (Some Y))) as Hin.
  { rewrite <- (try_Month_num_rows (monthly_grouped (dff table (Some Y)))).
    apply list_elem_of_fmap. eauto. }
  destruct (Hlabels _ Hin) as (z & Hlabel & Hz).
  exists z. split; [done|]. by rewrite Hrow2.
Qed.

(** ** Missing columns, seen from the charts *)



Lemma singleton_list {A} (a : A) (l : list A) :
  NoDup l → l ≠ [] → (∀ x, x ∈ l → x = a) → l = [a].
Proof.
  intros Hnd Hne Hall. destruct l as [|x [|y l]]; [done|..].
  - f_equal. apply Hall. left.
  - apply list.NoDup_cons in Hnd as [Hx _]. destruct Hx.
    rewrite (Hall x) by left. rewrite (Hall y) by (right; left). left.
Qed.

(** A source without the column [Vehicle_Type] has one vehicle type,
    [Unknown]: for every year of the table the bar chart and the pie of the
    yearly report have that one entry. *)
Theorem no_type_column_single_group
    (to_numeric_str : string → option Q) (repr_float : Q → string)
    (raw : Loader.RawFrame) (table : list SalesRecord) (Y : Z) :
  Loader.clean to_numeric_str repr_float raw = Some table →
  "Vehicle_Type" ∉ Loader.columns raw →
  (∃ r, r ∈ table ∧ Year r = Some Y) →
  (by_type (dff table (Some Y))).*1 = ["Unknown"]
  ∧ (adv (dff table (Some Y))).*1 = ["Unknown"].
Proof.
  intros Hclean Hcol (r & Hr & Hy).
  assert (∀ r, r ∈ table → Vehicle_Type r = Some "Unknown") as Htype.
  { intros r' Hr'.
    destruct (clean_elem_of _ _ _ _ _ Hclean Hr') as (source & _ & Hrow).
    apply clean_row_inv in Hrow as (_ & _ & _ & _ & Ht & _).
    unfold Loader.fallback in Ht. by rewrite decide_False in Ht. }
  assert (group_keys str_le Vehicle_Type (dff table (Some Y)) = ["Unknown"])
    as Hkeys.
  { apply singleton_list; [apply group_keys_NoDup|..].
    - intros Hnil.
      assert ("Unknown" ∈ group_keys str_le Vehicle_Type (dff table (Some Y)))
        as Hin; [|rewrite Hnil in Hin; by apply elem_of_nil in Hin].
      apply elem_of_group_keys. exists r. rewrite elem_of_dff. auto.
    - intros t (r' & [Hr' _]%elem_of_dff & Ht)%elem_of_group_keys.
      rewrite (Htype r' Hr') in Ht. by injection Ht. }
  unfold by_type, adv. by rewrite !groupby_agg_keys.
Qed.

(** ** The further properties on the sample tables *)

Example clean_raw_int_months :
  Loader.clean to_numeric_literal repr_none raw_int_months
  = Some table_int_months.
Proof. vm_compute. reflexivity. Qed.


Lemma yearly_placeholders_witness :
  update_charts_outcome
    {| records := []; Automobile_Sales_dtype := object;
       Advertising_Expenditure_dtype := object |}
    "Yearly Statistics" (Some 2019)
  = Raises TypeError.
Proof.
  refine (proj1 (yearly_placeholders
                   {| records := []; Automobile_Sales_dtype := object;
                      Advertising_Expenditure_dtype := object |} 2019) _).
  left. reflexivity.
Defined.

Lemma recession_placeholders_witness :
  ∃ fig1 fig2 fig3 fig4,
    update_charts_outcome (float_frame table_2020)
      "Recession Period Statistics" None
    = Returns (fig1, fig2, fig3, fig4)
    ∧ (is_placeholder fig1 = true ↔
       ∀ r, r ∈ table_2020 → Recession r = 1 → Year r = None)
    ∧ (is_placeholder fig2 = true ↔
       ∀ r, r ∈ table_2020 → Recession r = 1 → Vehicle_Type r = None)
    ∧ (is_placeholder fig3 = true ↔
       ∀ r, r ∈ table_2020 → Recession r = 1 → Vehicle_Type r = None).
Proof.
  refine (proj2 (recession_placeholders (float_frame table_2020) None)
            eq_refl eq_refl _).
  apply list.Forall_forall. by_evaluation.
Defined.

Lemma no_year_no_chart_witness :
  year_dd_options (years (load table_no_year)) = []
  ∧ year_dd (layout (years (load table_no_year))) = None
  ∧ update_charts_outcome (float_frame table_no_year) "Yearly Statistics" None
    = Returns
        (NoData "Yearly Automobile Sales (Average)",
         NoData "Total Monthly Automobile Sales — None",
         NoData "Average Vehicles Sold by Vehicle Type — None",
         NoData "Ad Expenditure Share by Vehicle Type — None").
Proof.
  apply (no_year_no_chart (float_frame table_no_year)).
  apply list.Forall_forall. by_evaluation.
Defined.

Lemma clean_raises_when_witness :
  Loader.clean to_numeric_literal repr_none raw_fraction_year = None.
Proof.
  apply (clean_raises_when to_numeric_literal repr_none raw_fraction_year).
  right. eexists _, (4039 # 2)%Q. split; [left|]. split; [reflexivity|].
  intros (z & Hz & _). unfold Qeq in Hz. simpl in Hz. lia.
Defined.


Lemma int_month_label_round_trip_witness :
  astype_int (Loader.astype_str repr_none (Int 12)) = Some 12.
Proof. apply (int_month_label_round_trip repr_none 12). lia. Defined.

Lemma integer_months_sorted_by_number_witness :
  ascending_by_number (monthly (dff table_int_months (Some 2019))).*1.*1
  ∧ ∀ row, row ∈ monthly (dff table_int_months (Some 2019)) →
      ∃ z, row.1.1 = pretty z ∧ row.2 = Some z.
Proof.
  apply (integer_months_sorted_by_number to_numeric_literal repr_none
           raw_int_months).
  - vm_compute. reflexivity.
  - intros source Hin. simpl in Hin.
    apply list.elem_of_cons in Hin as [->|Hin].
    { exists 10. split; [reflexivity|lia]. }
    apply list.elem_of_cons in Hin as [->|Hin].
    { exists 2. split; [reflexivity|lia]. }
    by apply elem_of_nil in Hin.
Defined.


Lemma no_type_column_single_group_witness :
  (by_type (dff table_int_months (Some 2019))).*1 = ["Unknown"]
  ∧ (adv (dff table_int_months (Some 2019))).*1 = ["Unknown"].
Proof.
  apply (no_type_column_single_group to_numeric_literal repr_none
           raw_int_months).
  - vm_compute. reflexivity.
  - by_evaluation.
  - eexists. split; [left|reflexivity].
Defined.
